(** * pypostgres: the execution facade and the reader registry

    A shallow embedding of [src/postgres_manager.py] and [src/readers.py].

    - [PyStr]: the [str] methods the code calls ([strip], [split], [upper],
      [lower], [startswith], [join]) on text of code points below 256.
    - [Readers]: [SQLReader.read] and [ReaderFactory.get_reader].
    - [Driver]: the database driver seen from the facade, as a log of the
      calls made to it and an oracle that answers each call.
    - [Facade]: [PostgresManager], every method a computation over the
      manager state that returns a value or raises.
    - [Spec], [Demo]: the notions the statements use and the inputs the
      code is run on; the properties follow, by subject: strings, readers,
      single statements, batches, the connection, files and frames.

    Logging calls are left out everywhere: they touch neither the manager
    nor the driver. *)

From Stdlib Require Import String Ascii List ZArith Lia Bool Arith.
Import ListNotations.

Set Implicit Arguments.

(* ------------------------------------------------------------------ *)
(** ** Python strings *)

Module PyStr.

Local Open Scope string_scope.

(** [str.isspace] on one character, for code points below 256: TAB..CR,
    FS..US, SPACE, NEL (0x85) and NBSP (0xA0). *)
Definition isspace (c : ascii) : bool :=
  let n := nat_of_ascii c in
  (((9 <=? n) && (n <=? 13)) || ((28 <=? n) && (n <=? 32))
   || (n =? 133) || (n =? 160))%nat.

Fixpoint lstrip (s : string) : string :=
  match s with
  | EmptyString => EmptyString
  | String c rest => if isspace c then lstrip rest else s
  end.

Fixpoint rstrip (s : string) : string :=
  match s with
  | EmptyString => EmptyString
  | String c rest =>
      match rstrip rest with
      | EmptyString => if isspace c then EmptyString else String c EmptyString
      | kept => String c kept
      end
  end.

(** [s.strip()] *)
Definition strip (s : string) : string := rstrip (lstrip s).

(** [s.split(sep)] for a one-character separator: never an empty list,
    [''.split(';') == ['']]. *)
Fixpoint split (sep : ascii) (s : string) : list string :=
  match s with
  | EmptyString => [EmptyString]
  | String c rest =>
      if Ascii.eqb c sep then EmptyString :: split sep rest
      else match split sep rest with
           | [] => [String c EmptyString]
           | frag :: frags => String c frag :: frags
           end
  end.

(** [sep.join(parts)] *)
Definition join (sep : string) (parts : list string) : string :=
  String.concat sep parts.

(** [str.upper] character by character.  Python's result leaves the range
    for 0xB5 and 0xFF and is the two letters SS for 0xDF; these three are
    left unchanged here.  The code only asks whether the result starts with
    SELECT, and the answer is the same either way: a text with one of the
    three among its first six characters does not start with SELECT once
    Python has upper-cased it. *)
Definition upper_char (c : ascii) : ascii :=
  let n := nat_of_ascii c in
  if (((97 <=? n) && (n <=? 122))
      || ((224 <=? n) && (n <=? 254) && negb (n =? 247)))%nat
  then ascii_of_nat (n - 32) else c.

Fixpoint upper (s : string) : string :=
  match s with
  | EmptyString => EmptyString
  | String c rest => String (upper_char c) (upper rest)
  end.

(** [str.lower] character by character (closed on code points below 256). *)
Definition lower_char (c : ascii) : ascii :=
  let n := nat_of_ascii c in
  if (((65 <=? n) && (n <=? 90))
      || ((192 <=? n) && (n <=? 222) && negb (n =? 215)))%nat
  then ascii_of_nat (n + 32) else c.

Fixpoint lower (s : string) : string :=
  match s with
  | EmptyString => EmptyString
  | String c rest => String (lower_char c) (lower rest)
  end.

(** [s.startswith(p)] *)
Definition startswith (s p : string) : bool := String.prefix p s.

(** Truth value of a string: non-empty. *)
Definition truthy (s : string) : bool :=
  match s with EmptyString => false | String _ _ => true end.

(** [repr] of a list of strings that hold no quote and no escape. *)
Definition repr_list (l : list string) : string :=
  "[" ++ join ", " (map (fun s => "'" ++ s ++ "'") l) ++ "]".

(** Every character of [s] satisfies [p]. *)
Fixpoint all_chars (p : ascii -> bool) (s : string) : bool :=
  match s with
  | EmptyString => true
  | String c rest => p c && all_chars p rest
  end.

Definition first_char (s : string) : option ascii :=
  match s with EmptyString => None | String c _ => Some c end.

Fixpoint last_char (s : string) : option ascii :=
  match s with
  | EmptyString => None
  | String c EmptyString => Some c
  | String _ rest => last_char rest
  end.

Definition not_space (o : option ascii) : Prop :=
  match o with None => True | Some c => isspace c = false end.

End PyStr.

(* ------------------------------------------------------------------ *)
(** ** Python values, exceptions and containers *)

Module Py.

Local Open Scope string_scope.

(** The scalars a row or a result tuple holds. *)
Inductive value : Type :=
| VNone
| VBool (b : bool)
| VInt (z : Z)
| VStr (s : string).

Definition tuple : Type := list value.

(** What the execution primitive hands back: [None], one scalar, one
    row, or the list of rows of [fetchall]. *)
Inductive pyobj : Type :=
| ONone
| OValue (v : value)
| OTuple (t : tuple)
| ORows (rs : list tuple).

(** The exception classes the code meets.  [Error] is the driver's
    [psycopg2.Error]; the others are Python's own. *)
Inductive exn : Type :=
| Error (msg : string)
| AttributeError (msg : string)
| KeyError (key : string)
| TypeError (msg : string)
| ValueError (msg : string)
| IndexError (msg : string)
| OSError (msg : string).

Inductive outcome (A : Type) : Type :=
| Return (a : A)
| Raise (e : exn).

Arguments Return {A} a.
Arguments Raise {A} e.

(** A [dict] with string keys, in insertion order. *)
Definition dict (V : Type) : Type := list (string * V).

Definition keys {V} (d : dict V) : list string := map fst d.
Definition values {V} (d : dict V) : list V := map snd d.

(** [d.get(k)] *)
Fixpoint get {V} (d : dict V) (k : string) : option V :=
  match d with
  | [] => None
  | (k', v) :: rest => if String.eqb k k' then Some v else get rest k
  end.

(** [d[k]] *)
Definition getitem {V} (d : dict V) (k : string) : outcome V :=
  match get d k with
  | Some v => Return v
  | None => Raise (KeyError k)
  end.

(** [seq[i]] for a list or a tuple and [0 <= i]. *)
Definition index {A} (l : list A) (i : nat) : outcome A :=
  match nth_error l i with
  | Some x => Return x
  | None => Raise (IndexError "index out of range")
  end.

(** A list comprehension whose element expression may raise: elements are
    evaluated left to right and the first exception is the result. *)
Fixpoint mapM {A B} (f : A -> outcome B) (l : list A) : outcome (list B) :=
  match l with
  | [] => Return []
  | x :: rest =>
      match f x with
      | Raise e => Raise e
      | Return y =>
          match mapM f rest with
          | Raise e => Raise e
          | Return ys => Return (y :: ys)
          end
      end
  end.

(** Truth value of an object. *)
Definition truthy (o : pyobj) : bool :=
  match o with
  | ONone => false
  | OValue VNone => false
  | OValue (VBool b) => b
  | OValue (VInt z) => negb (z =? 0)%Z
  | OValue (VStr s) => PyStr.truthy s
  | OTuple [] => false
  | OTuple (_ :: _) => true
  | ORows [] => false
  | ORows (_ :: _) => true
  end.

(** [o[0]] *)
Definition getitem0 (o : pyobj) : outcome pyobj :=
  match o with
  | OTuple (v :: _) => Return (OValue v)
  | ORows (r :: _) => Return (OTuple r)
  | OTuple [] => Raise (IndexError "tuple index out of range")
  | ORows [] => Raise (IndexError "list index out of range")
  | ONone => Raise (TypeError "'NoneType' object is not subscriptable")
  | OValue _ => Raise (TypeError "object is not subscriptable")
  end.

(** [for row in o]: the rows of a fetched list. *)
Definition iter_rows (o : pyobj) : outcome (list tuple) :=
  match o with
  | ORows rs => Return rs
  | OTuple [] => Return []
  | OTuple (_ :: _) => Raise (TypeError "object is not subscriptable")
  | ONone => Raise (TypeError "'NoneType' object is not iterable")
  | OValue _ => Raise (TypeError "object is not iterable")
  end.

Definition value_eqb (a b : value) : bool :=
  match a, b with
  | VNone, VNone => true
  | VBool x, VBool y => Bool.eqb x y
  | VInt x, VInt y => (x =? y)%Z
  | VStr x, VStr y => String.eqb x y
  | _, _ => false
  end.

Local Open Scope Z_scope.

(** The items of [range(i, stop, step)] for [0 < step], at most [fuel]. *)
Fixpoint range_up (fuel : nat) (i stop step : Z) : list Z :=
  match fuel with
  | O => []
  | S fuel' =>
      if i <? stop then i :: range_up fuel' (i + step) stop step else []
  end.

(** The items of [range(i, stop, step)] for [step < 0], at most [fuel]. *)
Fixpoint range_down (fuel : nat) (i stop step : Z) : list Z :=
  match fuel with
  | O => []
  | S fuel' =>
      if stop <? i then i :: range_down fuel' (i + step) stop step else []
  end.

(** [range(start, stop, step)]; a step of at least one in absolute value
    moves [i] by at least one, so [|stop - start|] items are enough. *)
Definition range (start stop step : Z) : outcome (list Z) :=
  if step =? 0 then Raise (ValueError "range() arg 3 must not be zero")
  else if 0 <? step
       then Return (range_up (Z.to_nat (stop - start)) start stop step)
       else Return (range_down (Z.to_nat (start - stop)) start stop step).

(** [l[lo:hi]] for [0 <= lo <= hi], the only slices the code takes. *)
Definition slice {A} (l : list A) (lo hi : Z) : list A :=
  firstn (Z.to_nat (hi - lo)) (skipn (Z.to_nat lo) l).

Definition len {A} (l : list A) : Z := Z.of_nat (length l).

End Py.

(* ------------------------------------------------------------------ *)
(** ** readers.py *)

Module Readers.

Import Py.
Local Open Scope string_scope.

(** The reader classes the factory can hand out. *)
Inductive reader : Type :=
| CSVReader
| JSONReader
| SQLReader
| PDFReader
| ExcelReader.

(** The comprehension of [SQLReader.read]:
    [[stmt.strip() for stmt in content.split(";") if stmt.strip()]]. *)
Fixpoint stripped_nonempty (fragments : list string) : list string :=
  match fragments with
  | [] => []
  | stmt :: rest =>
      if PyStr.truthy (PyStr.strip stmt)
      then PyStr.strip stmt :: stripped_nonempty rest
      else stripped_nonempty rest
  end.

Definition statements (content : string) : list string :=
  stripped_nonempty (PyStr.split ";" content).

(** What [json.load] can return, as far as the code tells the cases
    apart: an object, an array (of objects, the only arrays that can be
    inserted), or anything else. *)
Inductive json : Type :=
| JObject (o : dict value)
| JArray (items : list (dict value))
| JOther (v : value).

(** The files the process can open: a path holds text or cannot be read. *)
Definition filesystem : Type := string -> option string.

(** [SQLReader.read]: the handler logs and re-raises. *)
Definition SQLReader_read (fs : filesystem) (source : string)
  : outcome (list string) :=
  match fs source with
  | None => Raise (OSError source)
  | Some content => Return (statements content)
  end.

(** [t] is [fragment] without its surrounding whitespace: [fragment] is
    [t] between two runs of whitespace, and [t] neither starts nor ends with
    whitespace. *)
Definition trimmed_of (fragment t : string) : Prop :=
  exists before after,
    fragment = before ++ t ++ after
    /\ PyStr.all_chars PyStr.isspace before = true
    /\ PyStr.all_chars PyStr.isspace after = true
    /\ PyStr.not_space (PyStr.first_char t)
    /\ PyStr.not_space (PyStr.last_char t).

(** The text has no character. *)
Definition is_empty (s : string) : bool :=
  match s with EmptyString => true | String _ _ => false end.

(** The text holds no semicolon. *)
Definition no_semicolon (s : string) : bool :=
  PyStr.all_chars (fun c => negb (Ascii.eqb c ";")) s.

(** A statement as [SQLReader.read] returns them: it has characters, none
    of them a semicolon, and neither its first nor its last is whitespace. *)
Definition clean (stmt : string) : Prop :=
  PyStr.truthy stmt = true
  /\ PyStr.not_space (PyStr.first_char stmt)
  /\ PyStr.not_space (PyStr.last_char stmt)
  /\ PyStr.all_chars (fun c => negb (Ascii.eqb c ";")) stmt = true.

(** [ReaderFactory._readers] *)
Definition _readers : dict reader :=
  [ (".csv", CSVReader); (".json", JSONReader); (".sql", SQLReader);
    (".pdf", PDFReader); (".xlsx", ExcelReader); (".xls", ExcelReader) ].

Definition unsupported_message (ext : string) : string :=
  "Unsupported file format: " ++ ext ++ ". Supported formats: "
  ++ PyStr.repr_list (keys _readers).

Section GetReader.

(** [Path(file_path).suffix] belongs to the standard library. *)
Variable suffix : string -> string.

(** [ReaderFactory.get_reader] *)
Definition get_reader (file_path : string) : outcome reader :=
  let ext := PyStr.lower (suffix file_path) in
  match get _readers ext with
  | None => Raise (ValueError (unsupported_message ext))
  | Some reader_class => Return reader_class
  end.

End GetReader.

(** [needle in haystack] on strings. *)
Fixpoint contains (haystack needle : string) : bool :=
  String.prefix needle haystack
  || match haystack with
     | EmptyString => false
     | String _ rest => contains rest needle
     end.

(** The suffix of a bare file name: from its last dot, when that dot is
    neither the first nor the last character. *)
Fixpoint last_dot (name : string) : option string :=
  match name with
  | EmptyString => None
  | String c rest =>
      match last_dot rest with
      | Some s => Some s
      | None => if Ascii.eqb c "." then Some name else None
      end
  end.

Definition name_suffix (name : string) : string :=
  match name with
  | EmptyString => EmptyString
  | String c rest =>
      match last_dot rest with
      | Some (String _ (String _ _) as s) => s
      | _ => EmptyString
      end
  end.

End Readers.

(* ------------------------------------------------------------------ *)
(** ** The database driver *)

Module Driver.

Import Py.

(** One call made to the driver.  The log of these calls, oldest first,
    is what the facade has done to the database. *)
Inductive event : Type :=
| EvConnect
| EvClose
| EvCursor
| EvCursorClose
| EvExecute (query : string) (params : option (list value))
| EvExecuteMany (query : string) (rows : list (list value))
| EvFetchAll
| EvFetchOne
| EvCommit
| EvRollback.

(** One entry of [cursor.description]; the code reads entry [0], the name. *)
Record column : Type := { col_name : string; col_type_code : Z }.

(** The attributes of a cursor object the code reads. *)
Record cursor : Type := {
  description : option (list column);
  rowcount : Z
}.

(** A cursor on which nothing was executed yet: [description] is [None]
    and [rowcount] is [-1] (DB-API 2.0). *)
Definition fresh_cursor : cursor :=
  {| description := None; rowcount := (-1)%Z |}.

(** The driver and the database behind it, as answers that depend on the
    calls made so far.
    - [raises log ev]: the call [ev], made after [log], raises
      [psycopg2.Error] with this message;
    - the other fields: what a successful call yields, given the log up to
      and with that call. *)
Record t : Type := {
  raises : list event -> event -> option string;
  description_of : list event -> option (list column);
  rowcount_of : list event -> Z;
  fetchall_rows : list event -> list tuple;
  fetchone_row : list event -> option tuple
}.

(** No call ever raises. *)
Definition never_raises (d : t) : Prop :=
  forall log ev, raises d log ev = None.

(** The calls [evs], made one after the other once [log] is there, all
    return. *)
Fixpoint accepts (d : t) (log evs : list event) : Prop :=
  match evs with
  | [] => True
  | ev :: rest => raises d log ev = None /\ accepts d (log ++ [ev]) rest
  end.

Definition is_execution (ev : event) : bool :=
  match ev with
  | EvExecute _ _ | EvExecuteMany _ _ => true
  | _ => false
  end.

Definition is_cursor (ev : event) : bool :=
  match ev with EvCursor => true | _ => false end.

Definition is_cursor_close (ev : event) : bool :=
  match ev with EvCursorClose => true | _ => false end.

Definition is_commit (ev : event) : bool :=
  match ev with EvCommit => true | _ => false end.

Definition is_rollback (ev : event) : bool :=
  match ev with EvRollback => true | _ => false end.

(** How many of the calls of [log] satisfy [p]. *)
Definition count (p : event -> bool) (log : list event) : nat :=
  length (filter p log).

(** How many statements were sent for execution. *)
Definition executions (log : list event) : nat :=
  length (filter is_execution log).

End Driver.

(* ------------------------------------------------------------------ *)
(** ** postgres_manager.py *)

Module Facade.

Import Py Driver.
Local Open Scope string_scope.

(** A connection object; the number tells two connections apart. *)
Definition handle : Type := nat.

(** [PostgresManager]: [self.connection] and the log of the driver calls.
    [self.config] is only ever handed to [psycopg2.connect]. *)
Record manager : Type := {
  connection : option handle;
  trace : list event
}.

(** A freshly built manager: [self.connection = None]. *)
Definition init : manager := {| connection := None; trace := [] |}.

(** A method body: from the manager to a result or an exception, and the
    manager afterwards (what was logged before a raise stays logged). *)
Definition M (A : Type) : Type := manager -> outcome A * manager.

Definition ret {A} (a : A) : M A := fun m => (Return a, m).

Definition raise {A} (e : exn) : M A := fun m => (Raise e, m).

Definition bind {A B} (c : M A) (k : A -> M B) : M B :=
  fun m =>
    match c m with
    | (Return a, m') => k a m'
    | (Raise e, m') => (Raise e, m')
    end.

Definition lift {A} (o : outcome A) : M A := fun m => (o, m).

Declare Scope py_scope.
Delimit Scope py_scope with py.
Notation "x <- c ;; k" := (bind c (fun x => k))
  (at level 100, c at next level, right associativity) : py_scope.
Notation "c ;; k" := (bind c (fun _ => k))
  (at level 100, right associativity) : py_scope.
Local Open Scope py_scope.

(** [except Error: handler; raise]: only the driver's errors are caught; the
    handler runs and the same error goes on, unless the handler raises. *)
Definition except_Error {A} (body : M A) (handler : M unit) : M A :=
  fun m =>
    match body m with
    | (Raise (Error msg), m') =>
        match handler m' with
        | (Return _, m'') => (Raise (Error msg), m'')
        | (Raise e, m'') => (Raise e, m'')
        end
    | other => other
    end.

(** [try: body finally: cleanup] *)
Definition finally {A} (body : M A) (cleanup : M unit) : M A :=
  fun m =>
    match body m with
    | (r, m') =>
        match cleanup m' with
        | (Return _, m'') => (r, m'')
        | (Raise e, m'') => (Raise e, m'')
        end
    end.

Definition get_connection : M (option handle) :=
  fun m => (Return (connection m), m).

Definition get_trace : M (list event) :=
  fun m => (Return (trace m), m).

(** [self.connection.<attr>]: on [None] the attribute lookup fails. *)
Definition connection_attr (attr : string) : M handle :=
  fun m =>
    match connection m with
    | Some c => (Return c, m)
    | None =>
        (Raise (AttributeError
                  ("'NoneType' object has no attribute '" ++ attr ++ "'")), m)
    end.

Section WithDriver.

Variable D : Driver.t.

(** [MAX_BATCH_SIZE] of [config/settings.py], read from the environment. *)
Variable MAX_BATCH_SIZE : Z.

(** One driver call: it is logged, then it raises [psycopg2.Error] or
    returns.  The other exceptions a call can end in (a [TypeError] or an
    [IndexError] of [execute] when the parameters do not fit the
    placeholders) are not part of the driver described here. *)
Definition call (ev : event) : M unit :=
  fun m =>
    let m' := {| connection := connection m; trace := trace m ++ [ev] |} in
    match raises D (trace m) ev with
    | Some msg => (Raise (Error msg), m')
    | None => (Return tt, m')
    end.

(** [self.connection.cursor()] *)
Definition conn_cursor : M cursor :=
  connection_attr "cursor" ;; call EvCursor ;; ret fresh_cursor.

(** [self.connection.commit()] *)
Definition conn_commit : M unit :=
  connection_attr "commit" ;; call EvCommit.

(** [self.connection.rollback()] *)
Definition conn_rollback : M unit :=
  connection_attr "rollback" ;; call EvRollback.

(** [self.connection.close()] *)
Definition conn_close : M unit :=
  connection_attr "close" ;; call EvClose.

(** [cursor.execute(query, params)]: the cursor now describes the result. *)
Definition cursor_execute (query : string) (params : option (list value))
  : M cursor :=
  call (EvExecute query params) ;;
  log <- get_trace ;;
  ret {| description := description_of D log; rowcount := rowcount_of D log |}.

(** [cursor.executemany(query, rows)] *)
Definition cursor_executemany (query : string) (rows : list (list value))
  : M cursor :=
  call (EvExecuteMany query rows) ;;
  log <- get_trace ;;
  ret {| description := description_of D log; rowcount := rowcount_of D log |}.

(** [cursor.fetchall()] *)
Definition cursor_fetchall : M (list tuple) :=
  call EvFetchAll ;; log <- get_trace ;; ret (fetchall_rows D log).

(** [cursor.fetchone()] *)
Definition cursor_fetchone : M (option tuple) :=
  call EvFetchOne ;; log <- get_trace ;; ret (fetchone_row D log).

(** [cursor.close()] *)
Definition cursor_close : M unit := call EvCursorClose.

(** [connect]: the new connection replaces whatever was there. *)
Definition connect : M bool :=
  fun m =>
    match call EvConnect m with
    | (Return _, m') =>
        (Return true,
         {| connection := Some (length (trace m)); trace := trace m' |})
    | (Raise e, m') => (Raise e, m')
    end.

(** [disconnect]: with no connection the [if] is skipped and the function
    ends without a [return]. *)
Definition disconnect : M pyobj :=
  c <- get_connection ;;
  match c with
  | Some _ => conn_close ;; ret (OValue (VBool true))
  | None => ret ONone
  end.

(** Lines 120-133 of [_execute_query], once the cursor exists. *)
Definition execute_query_body (query : string) (params : option (list value))
  (fetch fetch_one commit : bool) : M pyobj :=
  cursor_execute query params ;;
  if fetch then
    results <- cursor_fetchall ;; ret (ORows results)
  else if fetch_one then
    row <- cursor_fetchone ;;
    ret (match row with Some r => OTuple r | None => ONone end)
  else
    (if commit then conn_commit else ret tt) ;;
    ret ONone.

(** Lines 136-137: [if self.connection: self.connection.rollback()]. *)
Definition rollback_if_connected : M unit :=
  c <- get_connection ;;
  match c with
  | Some _ => conn_rollback
  | None => ret tt
  end.

(** [_execute_query].  The local [cursor] is [None] until
    [self.connection.cursor()] has returned, so the [finally] block closes
    a cursor only after that point. *)
Definition _execute_query (query : string) (params : option (list value))
  (fetch fetch_one commit : bool) : M pyobj :=
  c <- get_connection ;;
  match c with
  | None =>
      except_Error (raise (Error "Not connected to database"))
                   rollback_if_connected
  | Some _ =>
      fun m =>
        match conn_cursor m with
        | (Raise e, m') =>
            except_Error (raise e) rollback_if_connected m'
        | (Return _, m') =>
            finally
              (except_Error
                 (execute_query_body query params fetch fetch_one commit)
                 rollback_if_connected)
              cursor_close m'
        end
  end.

(** The column definitions of [create_table], one per entry, in order. *)
Definition column_defs (columns : dict string) (primary_key : option string)
  : list string :=
  map (fun '(col_name, col_type) =>
         let col_def := col_name ++ " " ++ col_type in
         match primary_key with
         | Some pk =>
             if PyStr.truthy pk && String.eqb col_name pk
             then col_def ++ " PRIMARY KEY" else col_def
         | None => col_def
         end) columns.

Definition create_table_sql (table_name : string) (columns : dict string)
  (primary_key : option string) (if_not_exists : bool) : string :=
  let columns_str := PyStr.join ", " (column_defs columns primary_key) in
  let if_not_exists_str := if if_not_exists then "IF NOT EXISTS" else "" in
  "CREATE TABLE " ++ if_not_exists_str ++ " " ++ table_name
  ++ " (" ++ columns_str ++ ")".

(** [create_table] *)
Definition create_table (table_name : string) (columns : dict string)
  (primary_key : option string) (if_not_exists : bool) : M bool :=
  _execute_query
    (create_table_sql table_name columns primary_key if_not_exists)
    None false false true ;;
  ret true.

Definition drop_table_sql (table_name : string) (if_exists : bool) : string :=
  let if_exists_str := if if_exists then "IF EXISTS" else "" in
  "DROP TABLE " ++ if_exists_str ++ " " ++ table_name.

(** [drop_table] *)
Definition drop_table (table_name : string) (if_exists : bool) : M bool :=
  _execute_query (drop_table_sql table_name if_exists)
                 None false false true ;;
  ret true.

(** The statement [insert] and [insert_batch] build for a column list. *)
Definition insert_sql (table_name : string) (columns : list string) : string :=
  let placeholders := PyStr.join ", " (repeat "%s" (length columns)) in
  let cols_str := PyStr.join ", " columns in
  "INSERT INTO " ++ table_name ++ " (" ++ cols_str ++ ") VALUES ("
  ++ placeholders ++ ")".

(** [insert] *)
Definition insert (table_name : string) (data : dict value)
  (return_id : bool) : M pyobj :=
  let query := insert_sql table_name (keys data) in
  let query := if return_id then query ++ " RETURNING id" else query in
  result <- _execute_query query (Some (values data)) false return_id true ;;
  if return_id && truthy result
  then lift (getitem0 result)
  else ret ONone.

(** The body of the loop of [insert_batch], for one chunk. *)
Definition insert_chunk (table_name : string) (batch : list (dict value))
  : M unit :=
  first <- lift (index batch 0) ;;
  let columns := keys first in
  let query := insert_sql table_name columns in
  conn_cursor ;;
  values <- lift (mapM (fun row => mapM (getitem row) columns) batch) ;;
  cursor_executemany query values ;;
  conn_commit ;;
  cursor_close.

(** The loop of [insert_batch] over the start indices of the chunks. *)
Fixpoint insert_batch_loop (table_name : string) (data_list : list (dict value))
  (batch_size : Z) (starts : list Z) (total_inserted : Z) : M Z :=
  match starts with
  | [] => ret total_inserted
  | i :: rest =>
      let batch := slice data_list i (i + batch_size) in
      insert_chunk table_name batch ;;
      insert_batch_loop table_name data_list batch_size rest
                        (total_inserted + len batch)
  end.

(** [insert_batch]: the handler logs and re-raises. *)
Definition insert_batch (table_name : string) (data_list : list (dict value))
  (batch_size : option Z) : M Z :=
  match data_list with
  | [] => ret 0%Z
  | _ :: _ =>
      let batch_size :=
        match batch_size with Some b => b | None => MAX_BATCH_SIZE end in
      starts <- lift (range 0 (len data_list) batch_size) ;;
      insert_batch_loop table_name data_list batch_size starts 0
  end.

Definition update_sql (table_name : string) (data : dict value)
  (where_clause : string) : string :=
  let set_clause := PyStr.join ", " (map (fun k => k ++ " = %s") (keys data)) in
  "UPDATE " ++ table_name ++ " SET " ++ set_clause ++ " WHERE " ++ where_clause.

(** [update]: the handler logs and re-raises. *)
Definition update (table_name : string) (data : dict value)
  (where_clause : string) (where_params : option (list value)) : M Z :=
  let values :=
    (values data ++ match where_params with Some p => p | None => [] end)%list
  in
  let query := update_sql table_name data where_clause in
  conn_cursor ;;
  cursor <- cursor_execute query (Some values) ;;
  conn_commit ;;
  let rows_affected := rowcount cursor in
  cursor_close ;;
  ret rows_affected.

Definition delete_sql (table_name where_clause : string) : string :=
  "DELETE FROM " ++ table_name ++ " WHERE " ++ where_clause.

(** [delete]: the handler logs and re-raises. *)
Definition delete (table_name where_clause : string)
  (where_params : option (list value)) : M Z :=
  let query := delete_sql table_name where_clause in
  conn_cursor ;;
  cursor <- cursor_execute query where_params ;;
  conn_commit ;;
  let rows_affected := rowcount cursor in
  cursor_close ;;
  ret rows_affected.

(** A [pandas.DataFrame]: column labels and rows. *)
Record DataFrame : Type := {
  df_columns : list string;
  df_rows : list tuple
}.

(** [pd.DataFrame(data, columns=columns)] for a list of rows: every row
    must be as wide as the labels. *)
Definition pd_DataFrame (data : pyobj) (columns : list string)
  : outcome DataFrame :=
  match data with
  | ORows rs =>
      if forallb (fun r => Nat.eqb (length r) (length columns)) rs
      then Return {| df_columns := columns; df_rows := rs |}
      else Raise (ValueError "columns passed do not match the data")
  | ONone => Return {| df_columns := columns; df_rows := [] |}
  | _ => Raise (ValueError "DataFrame constructor not properly called!")
  end.

Inductive query_result : Type :=
| Raw (results : pyobj)
| Frame (df : DataFrame).

(** [[desc[0] for desc in self.connection.cursor().description]]: the
    description read is that of a cursor made on the spot. *)
Definition new_cursor_column_names : M (list string) :=
  cursor <- conn_cursor ;;
  match description cursor with
  | Some descs => ret (map col_name descs)
  | None => raise (TypeError "'NoneType' object is not iterable")
  end.

(** [query] *)
Definition query (query_str : string) (params : option (list value))
  (return_df : bool) : M query_result :=
  results <- _execute_query query_str params true false false ;;
  if return_df then
    columns <- (if truthy results then new_cursor_column_names else ret []) ;;
    df <- lift (pd_DataFrame results columns) ;;
    ret (Frame df)
  else
    ret (Raw (if truthy results then results else ORows [])).

(** [statement.upper().startswith("SELECT")] *)
Definition is_select (statement : string) : bool :=
  PyStr.startswith (PyStr.upper statement) "SELECT".

(** The loop of [execute_from_sql_file]; [results] starts as [None]. *)
Fixpoint run_statements (statements : list string) (results : pyobj)
  : M pyobj :=
  match statements with
  | [] => ret results
  | statement :: rest =>
      if is_select statement then
        results' <- _execute_query statement None true false false ;;
        run_statements rest results'
      else
        _execute_query statement None false false true ;;
        run_statements rest results
  end.

Section WithFiles.

Variable fs : Readers.filesystem.

(** [execute_from_sql_file]: the handler logs and re-raises. *)
Definition execute_from_sql_file (file_path : string) : M pyobj :=
  statements <- lift (Readers.SQLReader_read fs file_path) ;;
  results <- run_statements statements ONone ;;
  ret (if truthy results then results else ORows []).

End WithFiles.

Definition nl : string := String (ascii_of_nat 10) EmptyString.

Definition table_exists_sql : string :=
  nl ++ "                SELECT EXISTS ("
  ++ nl ++ "                    SELECT 1 FROM information_schema.tables "
  ++ nl ++ "                    WHERE table_name = %s"
  ++ nl ++ "                )"
  ++ nl ++ "            ".

(** [table_exists] *)
Definition table_exists (table_name : string) : M pyobj :=
  result <- _execute_query table_exists_sql (Some [VStr table_name])
                           false true false ;;
  if truthy result then lift (getitem0 result)
  else ret (OValue (VBool false)).

Definition table_columns_sql : string :=
  nl ++ "                SELECT column_name, data_type, is_nullable"
  ++ nl ++ "                FROM information_schema.columns"
  ++ nl ++ "                WHERE table_name = %s"
  ++ nl ++ "                ORDER BY ordinal_position"
  ++ nl ++ "            ".

(** One entry of the list [get_table_columns] returns. *)
Record column_info : Type := {
  info_name : value;
  info_type : value;
  info_nullable : bool
}.

Definition column_info_of (row : tuple) : outcome column_info :=
  match index row 0, index row 1, index row 2 with
  | Return n, Return t, Return y =>
      Return {| info_name := n; info_type := t;
                info_nullable := value_eqb y (VStr "YES") |}
  | Raise e, _, _ | _, Raise e, _ | _, _, Raise e => Raise e
  end.

(** [get_table_columns] *)
Definition get_table_columns (table_name : string) : M (list column_info) :=
  results <- _execute_query table_columns_sql (Some [VStr table_name])
                            true false false ;;
  rows <- lift (iter_rows results) ;;
  lift (mapM column_info_of rows).

(** [__enter__]: connects and hands back the manager itself. *)
Definition __enter__ : M unit := connect ;; ret tt.

(** [__exit__]: disconnects and ends without a [return], so an exception
    of the block is not swallowed. *)
Definition __exit__ : M pyobj := disconnect ;; ret ONone.

(** [with manager as mgr: body].  When [__enter__] raises the block does
    not run and [__exit__] is not called; otherwise [__exit__] runs whatever
    the block did, and an exception it raises replaces the block's result.
    The value of [__exit__] is [None], which suppresses nothing. *)
Definition with_manager {A} (body : M A) : M A :=
  fun m =>
    match __enter__ m with
    | (Raise e, m1) => (Raise e, m1)
    | (Return _, m1) =>
        match body m1 with
        | (r, m2) =>
            match __exit__ m2 with
            | (Raise e, m3) => (Raise e, m3)
            | (Return _, m3) => (r, m3)
            end
        end
    end.

(** [df.to_dict("records")] for a frame with distinct column labels: one
    dict per row, the labels in their order. *)
Definition to_dict_records (df : DataFrame) : list (dict value) :=
  map (fun row => combine (df_columns df) row) (df_rows df).

(** [df.empty]: an axis of length 0. *)
Definition df_empty (df : DataFrame) : bool :=
  match df_columns df, df_rows df with
  | [], _ | _, [] => true
  | _, _ => false
  end.

(** [insert_from_dataframe]: the handler logs and re-raises. *)
Definition insert_from_dataframe (table_name : string) (df : DataFrame)
  (batch_size : option Z) : M Z :=
  if df_empty df then ret 0%Z
  else insert_batch table_name (to_dict_records df) batch_size.

Section WithJson.

Variable fs : Readers.filesystem.

(** [json.load] on the text of a file. *)
Variable json_load : string -> outcome Readers.json.

(** [JSONReader.read]: the handler logs and re-raises. *)
Definition JSONReader_read (source : string) : outcome Readers.json :=
  match fs source with
  | None => Raise (OSError source)
  | Some content => json_load content
  end.

(** [insert_from_json]: the handler logs and re-raises. *)
Definition insert_from_json (table_name json_path : string)
  (batch_size : option Z) : M Z :=
  data <- lift (JSONReader_read json_path) ;;
  match data with
  | Readers.JObject o => insert_batch table_name [o] batch_size
  | Readers.JArray items => insert_batch table_name items batch_size
  | Readers.JOther _ => raise (ValueError "JSON must contain a list or dict")
  end.

End WithJson.

End WithDriver.

End Facade.

(* ------------------------------------------------------------------ *)
(** ** What the specification speaks of *)

Module Spec.

Import Py Driver Facade.
Local Open Scope string_scope.
Local Open Scope list_scope.

(** Consecutive chunks of [n] items; the last one may be shorter. *)
Fixpoint chunks_upto {A} (fuel n : nat) (l : list A) : list (list A) :=
  match fuel with
  | O => []
  | S fuel' =>
      match l with
      | [] => []
      | _ :: _ => firstn n l :: chunks_upto fuel' n (skipn n l)
      end
  end.

Definition chunks {A} (n : nat) (l : list A) : list (list A) :=
  chunks_upto (length l) n l.

(** The slices of [l] of the given size that start at [starts]. *)
Definition slices {A} (l : list A) (size : Z) (starts : list Z)
  : list (list A) :=
  map (fun i => slice l i (i + size)%Z) starts.

(** [n / b] rounded up. *)
Definition ceil_div (n b : Z) : Z := ((n + b - 1) / b)%Z.

(** The values of [row] under [columns], in the order of [columns]. *)
Definition project (columns : list string) (row : dict value) : list value :=
  map (fun k => match get row k with Some v => v | None => VNone end) columns.

(** [row] has every key of [columns]. *)
Definition covers (columns : list string) (row : dict value) : bool :=
  forallb (fun k => match get row k with Some _ => true | None => false end)
          columns.

(** The column list of a chunk: the keys of its own first row. *)
Definition chunk_columns (chunk : list (dict value)) : list string :=
  match chunk with
  | [] => []
  | first :: _ => keys first
  end.

(** Every row of the chunk has the keys of the chunk's first row. *)
Definition chunk_ok (chunk : list (dict value)) : bool :=
  forallb (covers (chunk_columns chunk)) chunk.

(** The driver calls of one chunk that goes through. *)
Definition chunk_events (table_name : string) (chunk : list (dict value))
  : list event :=
  [ EvCursor;
    EvExecuteMany (insert_sql table_name (chunk_columns chunk))
                  (map (project (chunk_columns chunk)) chunk);
    EvCommit;
    EvCursorClose ].

(** A chunk that has rows, each with the keys of the first one. *)
Definition sendable (chunk : list (dict value)) : Prop :=
  chunk <> [] /\ chunk_ok chunk = true.

(** The chunk size [insert_batch] works with. *)
Definition chunk_size (MAX_BATCH_SIZE : Z) (batch_size : option Z) : Z :=
  match batch_size with Some b => b | None => MAX_BATCH_SIZE end.

(** All rows have the same set of keys. *)
Definition uniform_keys (rows : list (dict value)) : Prop :=
  forall r r', In r rows -> In r' rows ->
  forall k, In k (keys r) <-> In k (keys r').

(** The driver calls of one statement of a SQL file that goes through:
    fetched when it starts with SELECT, committed otherwise. *)
Definition statement_events (statement : string) : list event :=
  [ EvCursor;
    EvExecute statement None;
    (if is_select statement then EvFetchAll else EvCommit);
    EvCursorClose ].

(** The log at the moment the rows of [statement] are fetched. *)
Definition fetch_point (log : list event) (statement : string) : list event :=
  log ++ [EvCursor; EvExecute statement None; EvFetchAll].

(** The running last-results value after [statements], starting from
    [results] with the calls of [log] already made: a statement that
    starts with SELECT replaces it by the rows fetched for it. *)
Fixpoint last_results (D : Driver.t) (log : list event)
  (statements : list string) (results : pyobj) : pyobj :=
  match statements with
  | [] => results
  | s :: rest =>
      last_results D (log ++ statement_events s) rest
        (if is_select s then ORows (fetchall_rows D (fetch_point log s))
         else results)
  end.

Definition no_select (statements : list string) : bool :=
  forallb (fun s => negb (is_select s)) statements.

(** The capital letters A..Z, by code point. *)
Definition capital (n : nat) : bool := ((65 <=? n) && (n <=? 90))%nat.

(** Two characters are the same up to case: the same character, or a
    capital letter A..Z and the small letter 32 code points above it. *)
Definition same_nocase (a b : ascii) : bool :=
  let x := nat_of_ascii a in
  let y := nat_of_ascii b in
  ((x =? y) || (capital x && (y =? x + 32)) || (capital y && (x =? y + 32)))%nat.

(** A literal prefix match that ignores case: [statement] has at least as
    many characters as [word], and its first characters are those of
    [word], one by one, up to case. *)
Fixpoint prefix_nocase (word statement : string) : bool :=
  match word, statement with
  | EmptyString, _ => true
  | String _ _, EmptyString => false
  | String w word', String c rest =>
      same_nocase w c && prefix_nocase word' rest
  end.

(** The clause of [create_table] for a column that is not the key. *)
Definition plain_def (column : string * string) : string :=
  (fst column ++ " " ++ snd column)%string.

(** The calls of one statement the driver rejects inside [_execute_query]. *)
Definition rejected_events (statement : string) (params : option (list value))
  : list event :=
  [EvCursor; EvExecute statement params; EvRollback; EvCursorClose].

(** How many times the placeholder [%s] occurs in a statement. *)
Fixpoint placeholders (statement : string) : nat :=
  match statement with
  | EmptyString => 0
  | String c rest =>
      (if Ascii.eqb c "%" && PyStr.startswith rest "s" then 1 else 0)
      + placeholders rest
  end.

(** The text holds no percent sign. *)
Definition no_percent (s : string) : bool :=
  PyStr.all_chars (fun c => negb (Ascii.eqb c "%")) s.

(** The driver calls for one chunk of the rows of a frame. *)
Definition frame_chunk_events (table_name : string) (columns : list string)
  (rows : list tuple) : list event :=
  [ EvCursor; EvExecuteMany (insert_sql table_name columns) rows;
    EvCommit; EvCursorClose ].

(** The frame is rectangular and its labels are distinct. *)
Definition well_formed (df : DataFrame) : Prop :=
  NoDup (df_columns df)
  /\ Forall (fun row => length row = length (df_columns df)) (df_rows df).

(** Running [c] leaves [self.connection] as it was. *)
Definition keeps_connection {A} (c : M A) : Prop :=
  forall m, connection (snd (c m)) = connection m.

(** The entry of [get_table_columns] for a row of at least three items. *)
Definition column_info_at (row : tuple) : column_info :=
  {| info_name := nth 0 row VNone;
     info_type := nth 1 row VNone;
     info_nullable := value_eqb (nth 2 row VNone) (VStr "YES") |}.

(** The error of an operation attempted with no connection. *)
Definition not_connected : exn := Error "Not connected to database".

(** A manager with an open connection and the calls made so far. *)
Definition open_at (h : handle) (log : list event) : manager :=
  {| connection := Some h; trace := log |}.

(** A manager without a connection. *)
Definition closed_at (log : list event) : manager :=
  {| connection := None; trace := log |}.

End Spec.

(* ------------------------------------------------------------------ *)
(** ** Two drivers and a few inputs to run the code on *)

Module Demo.

Import Py Driver Facade.
Local Open Scope string_scope.
Local Open Scope list_scope.

(** A database that accepts everything: a fetch returns one row that
    holds the number of calls made so far, the generated id is 7. *)
Definition quiet : Driver.t :=
  {| raises := fun _ _ => None;
     description_of := fun _ =>
       Some [ {| col_name := "a"; col_type_code := 23 |};
              {| col_name := "b"; col_type_code := 23 |} ];
     rowcount_of := fun _ => 1%Z;
     fetchall_rows := fun log => [[VInt (len log); VInt 0]];
     fetchone_row := fun _ => Some [VInt 7] |}.

(** A database that rejects every statement it is sent. *)
Definition rejecting : Driver.t :=
  {| raises := fun _ ev =>
       if is_execution ev then Some "syntax error" else None;
     description_of := fun _ => None;
     rowcount_of := fun _ => (-1)%Z;
     fetchall_rows := fun _ => [];
     fetchone_row := fun _ => None |}.

(** A database that accepts everything until [n] calls were made and
    rejects every statement it is sent from then on. *)
Definition rejecting_after (n : nat) : Driver.t :=
  {| raises := fun log ev =>
       if is_execution ev && (n <=? length log)%nat
       then Some "disk full" else None;
     description_of := fun _ => None;
     rowcount_of := fun _ => 1%Z;
     fetchall_rows := fun _ => [];
     fetchone_row := fun _ => None |}.

(** A database that answers every fetch with two rows of the catalog. *)
Definition catalog : Driver.t :=
  {| raises := fun _ _ => None;
     description_of := fun _ => None;
     rowcount_of := fun _ => 2%Z;
     fetchall_rows := fun _ =>
       [ [VStr "id"; VStr "integer"; VStr "NO"];
         [VStr "name"; VStr "text"; VStr "YES"] ];
     fetchone_row := fun _ => Some [VBool true] |}.

(** A frame of two columns and two rows. *)
Definition people : DataFrame :=
  {| df_columns := ["name"; "age"];
     df_rows := [ [VStr "John"; VInt 30]; [VStr "Jane"; VInt 25] ] |}.

(** A parser that finds the same value in every file. *)
Definition always (data : Readers.json) : string -> outcome Readers.json :=
  fun _ => Return data.

(** A manager after a successful [connect]. *)
Definition connected : manager :=
  {| connection := Some 0; trace := [EvConnect] |}.

(** Three rows with the same keys. *)
Definition users : list (dict value) :=
  [ [("name", VStr "John"); ("email", VStr "john@example.com")];
    [("name", VStr "Jane"); ("email", VStr "jane@example.com")];
    [("name", VStr "Ann"); ("email", VStr "ann@example.com")] ].

(** Four rows whose keys differ: in chunks of two, the second row has a
    key more than the first, in another order; the third row opens a chunk
    with a key of its own, which the fourth row lacks. *)
Definition mixed : list (dict value) :=
  [ [("a", VInt 1); ("b", VInt 2)];
    [("b", VInt 3); ("a", VInt 4); ("c", VInt 5)];
    [("c", VInt 6)];
    [("a", VInt 7)] ].

(** Two chunks that go through under different columns. *)
Definition two_shapes : list (dict value) :=
  [ [("a", VInt 1)]; [("b", VInt 2)] ].

Definition one_file (path content : string) : Readers.filesystem :=
  fun p => if String.eqb p path then Some content else None.

End Demo.

(* ------------------------------------------------------------------ *)
(** * Properties *)

(** ** Strings *)

Module PyStrFacts.

Import PyStr.
Local Open Scope string_scope.

Lemma split_nonempty sep s : split sep s <> [].
Proof.
  destruct s as [|c rest]; simpl; [discriminate|].
  destruct (Ascii.eqb c sep); [discriminate|].
  destruct (split sep rest); discriminate.
Qed.

(** Joining the fragments with the separator gives the text back. *)
Lemma join_split sep s : join (String sep "") (split sep s) = s.
Proof.
  unfold join.
  induction s as [|c rest IH]; simpl; [reflexivity|].
  destruct (Ascii.eqb_spec c sep) as [->|Hne].
  - pose proof (split_nonempty sep rest) as Hn.
    destruct (split sep rest) as [|frag frags]; [contradiction|].
    simpl in *. rewrite IH. reflexivity.
  - pose proof (split_nonempty sep rest) as Hn.
    destruct (split sep rest) as [|frag frags]; [contradiction|].
    rewrite <- IH. destruct frags; reflexivity.
Qed.

(** No fragment holds the separator. *)
Lemma split_no_sep sep s :
  Forall (fun frag => all_chars (fun c => negb (Ascii.eqb c sep)) frag = true)
         (split sep s).
Proof.
  induction s as [|c rest IH]; simpl.
  - constructor; [reflexivity | constructor].
  - destruct (Ascii.eqb c sep) eqn:E.
    + constructor; [reflexivity | exact IH].
    + destruct (split sep rest) as [|frag frags]; simpl.
      * constructor; [simpl; rewrite E; reflexivity | constructor].
      * inversion IH as [|? ? Hfrag Hfrags]; subst.
        constructor; [simpl; rewrite E; exact Hfrag | exact Hfrags].
Qed.

Lemma lstrip_spec s :
  exists a, s = a ++ lstrip s /\ all_chars isspace a = true
            /\ not_space (first_char (lstrip s)).
Proof.
  induction s as [|c rest (a & Heq & Ha & Hf)]; simpl.
  - exists "". repeat split.
  - destruct (isspace c) eqn:E.
    + exists (String c a). simpl. rewrite E, <- Heq. repeat split; assumption.
    + exists "". simpl. repeat split. exact E.
Qed.

Lemma rstrip_spec s :
  exists b, s = rstrip s ++ b /\ all_chars isspace b = true
            /\ not_space (last_char (rstrip s)).
Proof.
  induction s as [|c rest (b & Heq & Hb & Hl)]; simpl.
  - exists "". repeat split.
  - destruct (rstrip rest) as [|k kept] eqn:R.
    + destruct (isspace c) eqn:E.
      * exists (String c rest). simpl in *. subst b.
        rewrite E, Hb. repeat split.
      * exists rest. simpl in *. subst b. repeat split; assumption.
    + exists b. simpl in *. rewrite <- Heq. repeat split; assumption.
Qed.

Lemma rstrip_keeps_first s :
  not_space (first_char s) -> not_space (first_char (rstrip s)).
Proof.
  destruct s as [|c rest]; simpl; [trivial|].
  intros E. destruct (rstrip rest); [rewrite E|]; exact E.
Qed.

(** [strip] removes whitespace, and only whitespace, from both ends. *)
Lemma strip_spec s :
  exists a b,
    s = a ++ strip s ++ b
    /\ all_chars isspace a = true /\ all_chars isspace b = true
    /\ not_space (first_char (strip s)) /\ not_space (last_char (strip s)).
Proof.
  unfold strip.
  destruct (lstrip_spec s) as (a & Heq & Ha & Hf).
  destruct (rstrip_spec (lstrip s)) as (b & Heq' & Hb & Hl).
  exists a, b. rewrite <- Heq'. repeat split; auto using rstrip_keeps_first.
Qed.

End PyStrFacts.

(** ** The readers *)

Module ReaderFacts.

Import Py PyStr Readers PyStrFacts.
Local Open Scope string_scope.

Lemma stripped_nonempty_filter fragments :
  stripped_nonempty fragments = filter truthy (map strip fragments).
Proof.
  induction fragments as [|stmt rest IH]; simpl; [reflexivity|].
  destruct (truthy (strip stmt)); rewrite IH; reflexivity.
Qed.

Lemma truthy_not_empty s : truthy s = negb (is_empty s).
Proof. destruct s; reflexivity. Qed.

(** [strip] yields the fragment without its surrounding whitespace. *)
Lemma strip_trimmed fragments :
  Forall2 trimmed_of fragments (map strip fragments).
Proof.
  induction fragments as [|frag frags IH]; simpl; constructor; [|exact IH].
  exact (strip_spec frag).
Qed.

Lemma lstrip_leading_spaces a s :
  all_chars isspace a = true -> lstrip (a ++ s) = lstrip s.
Proof.
  induction a as [|c a IH]; simpl; intros H; [reflexivity|].
  apply andb_prop in H as [Hc Ha]. rewrite Hc. apply IH, Ha.
Qed.

Lemma lstrip_all_spaces a : all_chars isspace a = true -> lstrip a = "".
Proof.
  induction a as [|c a IH]; simpl; intros H; [reflexivity|].
  apply andb_prop in H as [Hc Ha]. rewrite Hc. apply IH, Ha.
Qed.

Lemma lstrip_fixed s : not_space (first_char s) -> lstrip s = s.
Proof. destruct s as [|c s]; simpl; [reflexivity|]. intros ->. reflexivity. Qed.

Lemma rstrip_all_spaces b : all_chars isspace b = true -> rstrip b = "".
Proof.
  induction b as [|c b IH]; simpl; intros H; [reflexivity|].
  apply andb_prop in H as [Hc Hb]. rewrite (IH Hb), Hc. reflexivity.
Qed.

Lemma rstrip_spaces t b :
  not_space (last_char t) -> all_chars isspace b = true ->
  rstrip (t ++ b) = t.
Proof.
  intros Hl Hb. induction t as [|c t IH]; simpl.
  - apply rstrip_all_spaces, Hb.
  - destruct t as [|d t].
    + simpl in *. rewrite (rstrip_all_spaces b Hb), Hl. reflexivity.
    + rewrite (IH Hl). reflexivity.
Qed.

(** A fragment has one text without its surrounding whitespace, the one
    [strip] computes. *)
Lemma trimmed_of_strip fragment t : trimmed_of fragment t -> t = strip fragment.
Proof.
  intros (a & b & -> & Ha & Hb & Hf & Hl). unfold strip.
  rewrite (lstrip_leading_spaces a (t ++ b) Ha).
  destruct t as [|c t].
  - simpl. rewrite (lstrip_all_spaces b Hb). reflexivity.
  - rewrite (lstrip_fixed (String c t ++ b) Hf).
    symmetry. apply rstrip_spaces; assumption.
Qed.

Lemma trimmed_of_unique fragment t t' :
  trimmed_of fragment t -> trimmed_of fragment t' -> t = t'.
Proof.
  intros H H'. rewrite (trimmed_of_strip H), (trimmed_of_strip H').
  reflexivity.
Qed.

(** C8.  The statements [SQLReader.read] returns for a file content are the
    fragments of the content between semicolons (joined by semicolons they
    give the content back, and none holds a semicolon), each without its
    surrounding whitespace (the fragment is the statement between two runs
    of whitespace, and the statement neither starts nor ends with
    whitespace), those that are empty once stripped left out, in their
    order in the file.  Texts are of code points below 256, where
    whitespace is what [isspace] says. *)
Theorem statements_split_trim_drop (content : string) :
  let fragments := split ";" content in
  join ";" fragments = content
  /\ Forall (fun fragment => no_semicolon fragment = true) fragments
  /\ exists trimmed,
       Forall2 trimmed_of fragments trimmed
       /\ statements content = filter (fun t => negb (is_empty t)) trimmed.
Proof.
  intros fragments. split; [|split].
  - apply join_split.
  - apply split_no_sep.
  - exists (map strip fragments). split.
    + apply strip_trimmed.
    + unfold statements. fold fragments.
      rewrite stripped_nonempty_filter.
      apply filter_ext. intros s. apply truthy_not_empty.
Qed.

(** Every statement returned is non-empty and starts and ends with a
    character that is not whitespace. *)
Lemma statements_trimmed content :
  Forall (fun stmt => truthy stmt = true
                      /\ not_space (first_char stmt)
                      /\ not_space (last_char stmt))
         (statements content).
Proof.
  unfold statements. induction (split ";" content) as [|frag frags IH]; simpl.
  - constructor.
  - destruct (truthy (strip frag)) eqn:E; [|exact IH].
    constructor; [|exact IH].
    destruct (strip_spec frag) as (a & b & _ & _ & _ & Hf & Hl). auto.
Qed.

Example statements_two_selects :
  statements "SELECT * FROM users; SELECT COUNT(*) FROM orders;"
  = ["SELECT * FROM users"; "SELECT COUNT(*) FROM orders"].
Proof. reflexivity. Qed.

(** The splitter knows nothing of string literals. *)
Example statements_cut_literal :
  statements "INSERT INTO t VALUES ('a;b');  ; "
  = ["INSERT INTO t VALUES ('a"; "b')"].
Proof. reflexivity. Qed.

Lemma SQLReader_read_found fs source content :
  fs source = Some content ->
  SQLReader_read fs source = Return (statements content).
Proof. unfold SQLReader_read. intros ->. reflexivity. Qed.

Lemma get_none {V} (d : dict V) k : ~ In k (keys d) -> get d k = None.
Proof.
  induction d as [|[k' v] rest IH]; simpl; intros H; [reflexivity|].
  destruct (String.eqb_spec k k') as [->|Hne].
  - exfalso. apply H. left. reflexivity.
  - apply IH. intros Hin. apply H. right. exact Hin.
Qed.

Lemma get_some {V} (d : dict V) k :
  In k (keys d) -> exists v, get d k = Some v.
Proof.
  induction d as [|[k' v] rest IH]; simpl; intros H; [contradiction|].
  destruct (String.eqb_spec k k') as [->|Hne]; [eauto|].
  destruct H as [H|H]; [congruence | auto].
Qed.

Lemma contains_app_r a b needle :
  contains b needle = true -> contains (a ++ b) needle = true.
Proof.
  intros H. induction a as [|c a IH]; simpl; [exact H|].
  rewrite IH. apply orb_true_r.
Qed.

(** The message of the error names every supported extension. *)
Lemma unsupported_message_lists ext :
  Forall (fun k => contains (unsupported_message ext) k = true) (keys _readers).
Proof.
  unfold unsupported_message.
  repeat constructor; apply contains_app_r; apply contains_app_r;
    vm_compute; reflexivity.
Qed.

(** C7.  [get_reader] looks the lower-cased suffix of the path up in the
    registry.  A suffix that is not one of the supported extensions raises
    [ValueError] (the specification's UnsupportedFormatError) with a message
    that names every supported extension; each supported extension yields
    its reader: .csv the CSV reader, .json the JSON reader, .sql the SQL
    reader, .pdf the PDF reader, .xlsx and .xls the Excel reader. *)
Theorem get_reader_by_extension (suffix : string -> string)
  (file_path : string) :
  let ext := lower (suffix file_path) in
  (~ In ext [".csv"; ".json"; ".sql"; ".pdf"; ".xlsx"; ".xls"] ->
     get_reader suffix file_path = Raise (ValueError (unsupported_message ext))
     /\ Forall (fun k => contains (unsupported_message ext) k = true)
               [".csv"; ".json"; ".sql"; ".pdf"; ".xlsx"; ".xls"])
  /\ (ext = ".csv" -> get_reader suffix file_path = Return CSVReader)
  /\ (ext = ".json" -> get_reader suffix file_path = Return JSONReader)
  /\ (ext = ".sql" -> get_reader suffix file_path = Return SQLReader)
  /\ (ext = ".pdf" -> get_reader suffix file_path = Return PDFReader)
  /\ (ext = ".xlsx" -> get_reader suffix file_path = Return ExcelReader)
  /\ (ext = ".xls" -> get_reader suffix file_path = Return ExcelReader).
Proof.
  intros ext. unfold get_reader. fold ext.
  split.
  - intros Hout. split.
    + rewrite (get_none _readers ext Hout). reflexivity.
    + apply (unsupported_message_lists ext).
  - repeat split; intros ->; reflexivity.
Qed.

Example get_reader_csv :
  get_reader name_suffix "test.csv" = Return CSVReader.
Proof. reflexivity. Qed.

Example get_reader_upper_case :
  get_reader name_suffix "REPORT.XLSX" = Return ExcelReader.
Proof. reflexivity. Qed.

Example get_reader_txt :
  get_reader name_suffix "test.txt"
  = Raise (ValueError
      ("Unsupported file format: .txt. Supported formats: "
       ++ "['.csv', '.json', '.sql', '.pdf', '.xlsx', '.xls']")).
Proof. reflexivity. Qed.

End ReaderFacts.

(** ** The facade *)

Module FacadeFacts.

Import Py Driver Facade Spec.
Local Open Scope string_scope.
Local Open Scope list_scope.

Ltac unfold_calls :=
  unfold rollback_if_connected, conn_cursor, conn_commit, conn_rollback,
    conn_close, cursor_execute, cursor_executemany, cursor_fetchall,
    cursor_fetchone, cursor_close, connection_attr, get_connection,
    get_trace, call, except_Error, finally, bind, ret, raise, lift in *.

(** Split on whether the next driver call raises. *)
Ltac next_call :=
  match goal with
  | |- context [raises ?D ?log ?ev] =>
      let E := fresh "E" in destruct (raises D log ev) eqn:E; simpl
  end.

Arguments insert_sql : simpl never.

(** An event list written out holds no commit. *)
Ltac no_commit :=
  let H := fresh in
  simpl; intros H;
  repeat (destruct H as [H|H]; [discriminate H|]); exact H.

Section Primitive.

Variable D : Driver.t.

(** A statement that goes through and is fetched. *)
Lemma execute_query_fetch_all h query params fetch_one commit t :
  never_raises D ->
  _execute_query D query params true fetch_one commit (open_at h t)
  = (Return (ORows (fetchall_rows D (t ++ [EvCursor; EvExecute query params;
                                           EvFetchAll]))),
     open_at h (t ++ [EvCursor; EvExecute query params; EvFetchAll;
                      EvCursorClose])).
Proof.
  intros H. unfold _execute_query, execute_query_body, open_at. unfold_calls.
  simpl. repeat (rewrite H; simpl). rewrite <- !app_assoc. reflexivity.
Qed.

(** A statement that goes through and is committed. *)
Lemma execute_query_commit h query params t :
  never_raises D ->
  _execute_query D query params false false true (open_at h t)
  = (Return ONone,
     open_at h (t ++ [EvCursor; EvExecute query params; EvCommit;
                      EvCursorClose])).
Proof.
  intros H. unfold _execute_query, execute_query_body, open_at. unfold_calls.
  simpl. repeat (rewrite H; simpl). rewrite <- !app_assoc. reflexivity.
Qed.

(** With no connection nothing reaches the driver. *)
Lemma execute_query_not_connected query params fetch fetch_one commit t :
  _execute_query D query params fetch fetch_one commit (closed_at t)
  = (Raise not_connected, closed_at t).
Proof. reflexivity. Qed.

(** X9.  When [_execute_query] on an open connection ends in the driver's
    error [psycopg2.Error], the class its handler catches, a rollback was
    sent after the failing call, followed only by the release of the cursor
    if there is one.  Exceptions of other classes pass the handler by and
    are not covered. *)
Lemma execute_query_error_rolls_back h query params fetch fetch_one commit
  t msg m' :
  (forall log, raises D log EvCursorClose = None) ->
  _execute_query D query params fetch fetch_one commit (open_at h t)
  = (Raise (Error msg), m') ->
  exists before after,
    trace m' = t ++ before ++ EvRollback :: after
    /\ (after = [] \/ after = [EvCursorClose]).
Proof.
  intros Hclose. unfold _execute_query, execute_query_body, open_at.
  unfold_calls.
  simpl. next_call.
  - next_call; intros [= <- <-]; exists [EvCursor], []; simpl;
      rewrite <- ?app_assoc; auto.
  - next_call.
    + next_call; rewrite Hclose; intros [= <- <-]; simpl;
        exists [EvCursor; EvExecute query params], [EvCursorClose];
        rewrite <- !app_assoc; simpl; auto.
    + destruct fetch; [|destruct fetch_one; [|destruct commit]]; simpl.
      * next_call.
        -- next_call; rewrite Hclose; intros [= <- <-]; simpl;
             exists [EvCursor; EvExecute query params; EvFetchAll],
                    [EvCursorClose];
             rewrite <- !app_assoc; simpl; auto.
        -- rewrite Hclose. discriminate.
      * next_call.
        -- next_call; rewrite Hclose; intros [= <- <-]; simpl;
             exists [EvCursor; EvExecute query params; EvFetchOne],
                    [EvCursorClose];
             rewrite <- !app_assoc; simpl; auto.
        -- rewrite Hclose. discriminate.
      * next_call.
        -- next_call; rewrite Hclose; intros [= <- <-]; simpl;
             exists [EvCursor; EvExecute query params; EvCommit],
                    [EvCursorClose];
             rewrite <- !app_assoc; simpl; auto.
        -- rewrite Hclose. discriminate.
      * rewrite Hclose. discriminate.
Qed.


Lemma execute_query_fetch_one h query params commit t :
  let sent := [EvCursor; EvExecute query params; EvFetchOne] in
  let run := _execute_query D query params false true commit (open_at h t) in
  exists evs,
    snd run = open_at h (t ++ evs)
    /\ ~ In EvCommit evs
    /\ forall v, fst run = Return v ->
         evs = sent ++ [EvCursorClose]
         /\ v = match fetchone_row D (t ++ sent) with
                | Some r => OTuple r
                | None => ONone
                end.
Proof.
  intros sent run. subst run sent.
  unfold _execute_query, execute_query_body, open_at. unfold_calls. simpl.
  repeat next_call;
    (eexists; split; [rewrite <- ?app_assoc; simpl; reflexivity|];
     split; [no_commit | try discriminate]).
  intros v [= <-]. rewrite <- !app_assoc. simpl. auto.
Qed.

Lemma insert_return_id_goes_through h table data t :
  let query := (insert_sql table (keys data) ++ " RETURNING id")%string in
  let sent := [EvCursor; EvExecute query (Some (values data)); EvFetchOne] in
  never_raises D ->
  insert D table data true (open_at h t)
  = (Return match fetchone_row D (t ++ sent) with
            | Some (id :: _) => OValue id
            | _ => ONone
            end,
     open_at h (t ++ sent ++ [EvCursorClose])).
Proof.
  intros query sent H. subst sent.
  unfold insert, _execute_query, execute_query_body, open_at. unfold_calls.
  cbv zeta. fold query. simpl. repeat (rewrite H; simpl).
  rewrite <- !app_assoc. simpl.
  destruct (fetchone_row D _) as [[|id rest]|]; reflexivity.
Qed.

(** C9.  [insert] with [return_id] never sends a commit: whatever the driver
    answers, the calls it makes hold no commit, and when it returns, the
    calls are cursor, execute, fetchone, close and the value is the first
    item of the fetched row ([None] when there is no row).  When no driver
    call raises, it does return that value, with the insert still
    uncommitted on the connection. *)
Theorem insert_return_id_returns_before_commit table data m :
  let query := (insert_sql table (keys data) ++ " RETURNING id")%string in
  let sent := [EvCursor; EvExecute query (Some (values data)); EvFetchOne] in
  let run := insert D table data true m in
  let id_of row :=
    match row with Some (id :: _) => OValue id | _ => ONone end in
  (exists evs,
     trace (snd run) = trace m ++ evs
     /\ ~ In EvCommit evs
     /\ forall v, fst run = Return v ->
          evs = sent ++ [EvCursorClose]
          /\ v = id_of (fetchone_row D (trace m ++ sent)))
  /\ (never_raises D -> forall h, connection m = Some h ->
      run = (Return (id_of (fetchone_row D (trace m ++ sent))),
             open_at h (trace m ++ sent ++ [EvCursorClose]))).
Proof.
  intros query sent run id_of. subst run sent id_of. split.
  - destruct m as [[c|] t].
    2: { exists []. simpl. rewrite app_nil_r.
         repeat split; [no_commit | discriminate | discriminate]. }
    destruct (execute_query_fetch_one c query (Some (values data)) true t)
      as (evs & Hsnd & Hnc & Hret).
    fold (open_at c t). unfold insert. cbv zeta. fold query. unfold bind.
    destruct (_execute_query D query (Some (values data)) false true true
                             (open_at c t)) as [[r|e] m'] eqn:Hrun;
      simpl in Hsnd, Hret; subst m'; exists evs.
    + destruct (Hret r eq_refl) as [-> ->].
      destruct (fetchone_row D _) as [[|id rest]|]; simpl;
        (split; [reflexivity|]; split; [exact Hnc|]; intros v [= <-]; auto).
    + simpl. repeat split; [exact Hnc | discriminate | discriminate].
  - intros H h Hc. destruct m as [c t]. simpl in Hc. subst c.
    apply (insert_return_id_goes_through h table data t H).
Qed.


(** Without [return_id] the same call reaches the commit. *)
Lemma insert_plain_commits h table data t :
  let query := insert_sql table (keys data) in
  never_raises D ->
  insert D table data false (open_at h t)
  = (Return ONone,
     open_at h (t ++ [EvCursor; EvExecute query (Some (values data));
                      EvCommit; EvCursorClose])).
Proof.
  intros query H.
  unfold insert, _execute_query, execute_query_body, open_at. unfold_calls.
  cbv zeta. fold query. simpl. repeat (rewrite H; simpl).
  rewrite <- !app_assoc. reflexivity.
Qed.

(** C1 (the code departs from it).  The claim asks for a rollback after
    any failed statement.  When the statement of [update] is rejected by
    the driver, the error leaves [update] with nothing done after the
    failed call: no rollback is sent (and the cursor stays open). *)
Theorem update_failure_without_rollback h t table data where_clause
  where_params msg :
  let query := update_sql table data where_clause in
  let sent :=
    values data ++ match where_params with Some p => p | None => [] end in
  raises D t EvCursor = None ->
  raises D (t ++ [EvCursor]) (EvExecute query (Some sent)) = Some msg ->
  update D table data where_clause where_params (open_at h t)
  = (Raise (Error msg),
     open_at h (t ++ [EvCursor; EvExecute query (Some sent)]))
  /\ ~ In EvRollback [EvCursor; EvExecute query (Some sent)].
Proof.
  intros query sent Hcur Hexe. split.
  - unfold update, open_at. unfold_calls. cbv zeta. fold query. fold sent.
    simpl. rewrite Hcur. simpl. rewrite Hexe. simpl.
    rewrite <- !app_assoc. reflexivity.
  - simpl. intros [H|[H|[]]]; discriminate H.
Qed.

Lemma delete_failure_without_rollback h t table where_clause where_params msg :
  let query := delete_sql table where_clause in
  raises D t EvCursor = None ->
  raises D (t ++ [EvCursor]) (EvExecute query where_params) = Some msg ->
  delete D table where_clause where_params (open_at h t)
  = (Raise (Error msg),
     open_at h (t ++ [EvCursor; EvExecute query where_params])).
Proof.
  intros query Hcur Hexe.
  unfold delete, open_at. unfold_calls. cbv zeta. fold query.
  simpl. rewrite Hcur. simpl. rewrite Hexe. simpl.
  rewrite <- !app_assoc. reflexivity.
Qed.

(** [update] and [delete] do not go through [_execute_query]: with no
    connection the attribute lookup on [None] fails. *)
Lemma update_not_connected t table data where_clause where_params :
  update D table data where_clause where_params (closed_at t)
  = (Raise (AttributeError "'NoneType' object has no attribute 'cursor'"),
     closed_at t).
Proof. reflexivity. Qed.

Lemma delete_not_connected t table where_clause where_params :
  delete D table where_clause where_params (closed_at t)
  = (Raise (AttributeError "'NoneType' object has no attribute 'cursor'"),
     closed_at t).
Proof. reflexivity. Qed.

(** C6 (the code departs from it).  With no connection [disconnect] does
    nothing to the manager or the driver and returns [None], which is not
    the boolean [False]. *)
Theorem disconnect_without_connection t :
  disconnect D (closed_at t) = (Return ONone, closed_at t)
  /\ fst (disconnect D (closed_at t)) <> Return (OValue (VBool false)).
Proof.
  split.
  - reflexivity.
  - simpl. discriminate.
Qed.

(** With a connection, [disconnect] closes it and returns [True]; the
    attribute keeps the closed connection object. *)
Lemma disconnect_open h t :
  raises D t EvClose = None ->
  disconnect D (open_at h t)
  = (Return (OValue (VBool true)), open_at h (t ++ [EvClose])).
Proof.
  intros H. unfold disconnect, open_at. unfold_calls. simpl. rewrite H.
  reflexivity.
Qed.

(** [query] without [return_df]: the fetched rows as they came. *)
Lemma query_raw_rows query_str params m rs m' :
  _execute_query D query_str params true false false m
  = (Return (ORows rs), m') ->
  query D query_str params false m = (Return (Raw (ORows rs)), m').
Proof.
  intros H. unfold query, bind. rewrite H. unfold ret.
  destruct rs; reflexivity.
Qed.

(** [query] with [return_df] over an empty result: an empty frame. *)
Lemma query_frame_empty query_str params m m' :
  _execute_query D query_str params true false false m
  = (Return (ORows []), m') ->
  query D query_str params true m
  = (Return (Frame {| df_columns := []; df_rows := [] |}), m').
Proof. intros H. unfold query, bind. rewrite H. reflexivity. Qed.

(** C5 (the code departs from it).  [query] with [return_df] over a result
    that has rows never returns a table: the column names are read from a
    cursor made after the statement's cursor was closed, whose description
    is [None]. *)
Theorem query_frame_of_rows_raises query_str params m rs m' :
  _execute_query D query_str params true false false m
  = (Return (ORows rs), m') ->
  rs <> [] ->
  exists e,
    fst (query D query_str params true m) = Raise e
    /\ (e = TypeError "'NoneType' object is not iterable"
        \/ exists msg, e = Error msg).
Proof.
  intros H Hrs. unfold query, bind. rewrite H.
  destruct rs as [|r rs]; [contradiction|]. simpl.
  unfold new_cursor_column_names. unfold_calls.
  destruct m' as [[c|] t']; simpl.
  - next_call; eexists; split; try reflexivity; eauto.
  - eexists. split; [reflexivity|].
    exfalso. revert H. destruct m as [[c|] t]; [|discriminate].
    unfold _execute_query, execute_query_body. unfold_calls. simpl.
    repeat next_call; discriminate.
Qed.

(** With no connection the operations that go through [_execute_query]
    fail with the driver's error "Not connected to database" and leave the
    manager as it was; [insert_batch] of no rows returns 0 before it looks
    at the connection. *)
Lemma not_connected_operations MAX t table data return_id query_str params
  return_df columns primary_key if_not_exists if_exists batch_size :
  let m := closed_at t in
  insert D table data return_id m = (Raise not_connected, m)
  /\ query D query_str params return_df m = (Raise not_connected, m)
  /\ create_table D table columns primary_key if_not_exists m
     = (Raise not_connected, m)
  /\ drop_table D table if_exists m = (Raise not_connected, m)
  /\ table_exists D table m = (Raise not_connected, m)
  /\ get_table_columns D table m = (Raise not_connected, m)
  /\ insert_batch D MAX table [] batch_size m = (Return 0%Z, m).
Proof.
  intros m. subst m. repeat split.
Qed.

(** The loop of [execute_from_sql_file] when every call goes through. *)
Lemma run_statements_goes_through h statements :
  never_raises D ->
  forall t results,
  run_statements D statements results (open_at h t)
  = (Return (last_results D t statements results),
     open_at h (t ++ flat_map statement_events statements)).
Proof.
  intros H. induction statements as [|s rest IH]; intros t results; simpl.
  - rewrite app_nil_r. reflexivity.
  - unfold statement_events at 1, fetch_point.
    destruct (is_select s) eqn:Es; unfold bind.
    + rewrite (execute_query_fetch_all h s None false false t H).
      rewrite IH. rewrite <- app_assoc. reflexivity.
    + rewrite (execute_query_commit h s None t H).
      rewrite IH. rewrite <- app_assoc. reflexivity.
Qed.

Lemma last_results_app t a b results :
  last_results D t (a ++ b) results
  = last_results D (t ++ flat_map statement_events a) b
                 (last_results D t a results).
Proof.
  revert t results. induction a as [|s a IH]; intros t results; simpl.
  - rewrite app_nil_r. reflexivity.
  - rewrite IH, <- app_assoc. reflexivity.
Qed.

Lemma last_results_no_select t statements results :
  no_select statements = true ->
  last_results D t statements results = results.
Proof.
  revert t. induction statements as [|s rest IH]; intros t Hn; simpl in *.
  - reflexivity.
  - apply andb_prop in Hn as [Hs Hrest].
    destruct (is_select s); [discriminate|]. apply IH, Hrest.
Qed.

Lemma last_results_last_select t before s after results :
  is_select s = true -> no_select after = true ->
  last_results D t (before ++ s :: after) results
  = ORows (fetchall_rows D
             (fetch_point (t ++ flat_map statement_events before) s)).
Proof.
  intros Hs Hafter. rewrite last_results_app. simpl. rewrite Hs.
  apply last_results_no_select, Hafter.
Qed.

(** One character of the test [statement.upper().startswith("SELECT")]:
    the upper-cased character is the capital [w] exactly when the character
    is [w] up to case. *)
Lemma upper_char_is_capital w c :
  capital (nat_of_ascii w) = true ->
  Ascii.eqb w (PyStr.upper_char c) = same_nocase w c.
Proof.
  intros Hw.
  destruct w as [[] [] [] [] [] [] [] []]; try discriminate Hw;
    destruct c as [[] [] [] [] [] [] [] []]; reflexivity.
Qed.

Lemma prefix_step w p c s :
  String.prefix (String w p) (String c s) = Ascii.eqb w c && String.prefix p s.
Proof.
  simpl. destruct (ascii_dec w c) as [->|Hne].
  - rewrite Ascii.eqb_refl. reflexivity.
  - apply Ascii.eqb_neq in Hne. rewrite Hne. reflexivity.
Qed.

(** A word of capital letters is a prefix of the upper-cased text exactly
    when it is a prefix of the text up to case. *)
Lemma upper_prefix_nocase word :
  PyStr.all_chars (fun w => capital (nat_of_ascii w)) word = true ->
  forall s,
    PyStr.startswith (PyStr.upper s) word = prefix_nocase word s.
Proof.
  unfold PyStr.startswith.
  induction word as [|w word IH]; intros Hw s.
  - destruct s; reflexivity.
  - simpl in Hw. apply andb_prop in Hw as [Hw Hword].
    destruct s as [|c s]; [reflexivity|].
    cbn [PyStr.upper prefix_nocase]. rewrite prefix_step.
    rewrite (upper_char_is_capital w c Hw), (IH Hword s). reflexivity.
Qed.

Lemma is_select_prefix_nocase s :
  is_select s = prefix_nocase "SELECT" s.
Proof. apply (upper_prefix_nocase "SELECT"). reflexivity. Qed.

Section Files.

Variable fs : Readers.filesystem.

(** C4.  Given a readable file and a driver that accepts every call,
    [execute_from_sql_file] runs the statements of the file in their order:
    each one gets a cursor, is executed, is fetched if it starts with SELECT
    and committed otherwise, and its cursor is closed.  The call returns the
    rows fetched for the last statement that starts with SELECT, and the
    empty list when none does.  The test of the code, [is_select], is the
    literal prefix match that ignores case, [prefix_nocase]: the first six
    characters are s, e, l, e, c, t, each one capital or small.  Texts are
    of code points below 256, as everywhere in [PyStr]. *)
Theorem execute_from_sql_file_in_order h t file_path content :
  never_raises D ->
  fs file_path = Some content ->
  let stmts := Readers.statements content in
  let run := execute_from_sql_file D fs file_path (open_at h t) in
  snd run = open_at h (t ++ flat_map statement_events stmts)
  /\ (no_select stmts = true -> fst run = Return (ORows []))
  /\ (forall before s after,
        stmts = before ++ s :: after ->
        is_select s = true -> no_select after = true ->
        fst run
        = Return (ORows (fetchall_rows D
                   (fetch_point (t ++ flat_map statement_events before) s))))
  /\ (forall s, is_select s = prefix_nocase "SELECT" s).
Proof.
  intros H Hfile stmts run.
  assert (Hrun : run
    = (Return (if truthy (last_results D t stmts ONone)
               then last_results D t stmts ONone else ORows []),
       open_at h (t ++ flat_map statement_events stmts))).
  { subst run. unfold execute_from_sql_file, bind, lift.
    rewrite (ReaderFacts.SQLReader_read_found fs file_path Hfile).
    fold stmts. rewrite (run_statements_goes_through h stmts H).
    reflexivity. }
  rewrite Hrun. simpl. repeat split.
  - intros Hn. rewrite (last_results_no_select t stmts ONone Hn). reflexivity.
  - intros before s after Hsplit Hs Hafter.
    rewrite Hsplit, (last_results_last_select t before s after ONone Hs Hafter).
    destruct (fetchall_rows D _); reflexivity.
  - apply is_select_prefix_nocase.
Qed.

End Files.

End Primitive.

End FacadeFacts.

(** ** Batches *)

Module BatchFacts.

Import Py Driver Facade Spec FacadeFacts.
Local Open Scope string_scope.
Local Open Scope list_scope.

(** More fuel than items changes nothing. *)
Lemma chunks_upto_enough {A} (n : nat) :
  (0 < n)%nat ->
  forall fuel fuel' (l : list A),
    (length l <= fuel)%nat -> (length l <= fuel')%nat ->
    chunks_upto fuel n l = chunks_upto fuel' n l.
Proof.
  intros Hn. induction fuel as [|fuel IH]; intros fuel' l Hl Hl'.
  - destruct l; [|simpl in Hl; lia]. destruct fuel'; reflexivity.
  - destruct l as [|x l]; [destruct fuel'; reflexivity|].
    destruct fuel' as [|fuel']; [simpl in Hl'; lia|].
    simpl chunks_upto. f_equal.
    apply IH; rewrite length_skipn; cbn [length] in *; lia.
Qed.

Lemma chunks_cons {A} (n : nat) (x : A) l :
  (0 < n)%nat ->
  chunks n (x :: l) = firstn n (x :: l) :: chunks n (skipn n (x :: l)).
Proof.
  intros Hn. unfold chunks. simpl chunks_upto. f_equal.
  apply chunks_upto_enough; [exact Hn | | lia].
  rewrite length_skipn. cbn [length]. lia.
Qed.

(** The chunks, put end to end, are the list. *)
Lemma concat_chunks_upto {A} (n : nat) :
  (0 < n)%nat ->
  forall fuel (l : list A),
    (length l <= fuel)%nat -> concat (chunks_upto fuel n l) = l.
Proof.
  intros Hn. induction fuel as [|fuel IH]; intros l Hl.
  - destruct l; [reflexivity | simpl in Hl; lia].
  - destruct l as [|x l]; [reflexivity|].
    simpl chunks_upto. simpl concat. rewrite IH.
    + apply firstn_skipn.
    + rewrite length_skipn. cbn [length] in *. lia.
Qed.

Lemma concat_chunks {A} (n : nat) (l : list A) :
  (0 < n)%nat -> concat (chunks n l) = l.
Proof. intros Hn. apply concat_chunks_upto; [exact Hn | lia]. Qed.

(** Every chunk has between one and [n] items. *)
Lemma chunks_upto_sizes {A} (n : nat) :
  (0 < n)%nat ->
  forall fuel (l : list A),
    Forall (fun c => (0 < length c <= n)%nat) (chunks_upto fuel n l).
Proof.
  intros Hn. induction fuel as [|fuel IH]; intros l; simpl.
  - constructor.
  - destruct l as [|x l]; constructor; [|apply IH].
    rewrite length_firstn. simpl. lia.
Qed.

(** Every chunk but the last has exactly [n] items. *)
Lemma chunks_upto_full {A} (n : nat) :
  (0 < n)%nat ->
  forall fuel (l : list A),
    Forall (fun c => length c = n) (removelast (chunks_upto fuel n l)).
Proof.
  intros Hn. induction fuel as [|fuel IH]; intros l; [constructor|].
  destruct l as [|x l]; [constructor|].
  simpl chunks_upto. specialize (IH (skipn n (x :: l))).
  destruct (chunks_upto fuel n (skipn n (x :: l))) as [|c cs] eqn:E;
    [constructor|].
  cbn [removelast]. cbn [removelast] in IH. constructor; [|exact IH].
  rewrite length_firstn. apply Nat.min_l.
  destruct (Nat.le_gt_cases n (length (x :: l))) as [Hle|Hgt]; [exact Hle|].
  rewrite skipn_all2 in E by lia. destruct fuel; discriminate E.
Qed.

(** There are [ceil (length l / n)] chunks. *)
Lemma length_chunks_upto {A} (n : nat) :
  (0 < n)%nat ->
  forall fuel (l : list A),
    (length l <= fuel)%nat ->
    Z.of_nat (length (chunks_upto fuel n l)) = ceil_div (len l) (Z.of_nat n).
Proof.
  intros Hn. unfold ceil_div, len.
  induction fuel as [|fuel IH]; intros l Hl.
  - destruct l; [|simpl in Hl; lia]. simpl.
    symmetry. apply Z.div_small. lia.
  - destruct l as [|x l].
    + simpl. symmetry. apply Z.div_small. lia.
    + simpl chunks_upto. simpl length at 1.
      rewrite Nat2Z.inj_succ, IH
        by (rewrite length_skipn; cbn [length] in *; lia).
      rewrite length_skipn.
      set (k := length (x :: l)) in *.
      assert (Hk : (0 < k)%nat) by (subst k; simpl; lia).
      destruct (Nat.le_gt_cases n k) as [Hle|Hgt].
      * replace (Z.of_nat k + Z.of_nat n - 1)%Z
          with (Z.of_nat (k - n) + Z.of_nat n - 1 + 1 * Z.of_nat n)%Z by lia.
        rewrite Z.div_add by lia. lia.
      * replace (k - n)%nat with 0%nat by lia.
        rewrite (Z.div_small (Z.of_nat 0 + Z.of_nat n - 1)) by lia.
        apply Z.div_unique with (r := (Z.of_nat k - 1)%Z); lia.
Qed.


Lemma length_chunks {A} (n : nat) (l : list A) :
  (0 < n)%nat ->
  Z.of_nat (length (chunks n l)) = ceil_div (len l) (Z.of_nat n).
Proof. intros Hn. apply length_chunks_upto; [exact Hn | lia]. Qed.

(** The slices the loop takes at the items of the range are the chunks. *)
Lemma slices_range_up {A} (l : list A) (bs : Z) :
  (0 < bs)%Z ->
  forall fuel i, (0 <= i)%Z ->
    slices l bs (range_up fuel i (len l) bs)
    = chunks_upto fuel (Z.to_nat bs) (skipn (Z.to_nat i) l).
Proof.
  intros Hbs. unfold slices.
  induction fuel as [|fuel IH]; intros i Hi; [reflexivity|].
  simpl range_up. unfold len in *.
  destruct (Z.ltb_spec i (Z.of_nat (length l))) as [Hlt|Hge].
  - simpl map. rewrite IH by lia.
    replace (Z.to_nat (i + bs)) with (Z.to_nat bs + Z.to_nat i)%nat by lia.
    rewrite <- skipn_skipn. unfold slice.
    replace (i + bs - i)%Z with bs by lia.
    destruct (skipn (Z.to_nat i) l) as [|y ys] eqn:E; [|reflexivity].
    apply (f_equal (@length A)) in E. rewrite length_skipn in E.
    simpl in E. lia.
  - rewrite skipn_all2 by lia. reflexivity.
Qed.

Lemma range_chunks {A} (l : list A) (bs : Z) :
  (0 < bs)%Z ->
  exists starts,
    range 0 (len l) bs = Return starts
    /\ slices l bs starts = chunks (Z.to_nat bs) l.
Proof.
  intros Hbs. unfold range.
  destruct (Z.eqb_spec bs 0) as [|_]; [lia|].
  destruct (Z.ltb_spec 0 bs) as [_|]; [|lia].
  eexists. split; [reflexivity|].
  rewrite slices_range_up by lia. unfold chunks, len.
  rewrite Z.sub_0_r, Nat2Z.id. reflexivity.
Qed.

Lemma len_app {A} (a b : list A) : len (a ++ b) = (len a + len b)%Z.
Proof. unfold len. rewrite length_app. lia. Qed.

Lemma executions_chunks table cs :
  executions (flat_map (chunk_events table) cs) = length cs.
Proof.
  unfold executions. induction cs as [|c cs IH]; simpl; [reflexivity|].
  rewrite IH. reflexivity.
Qed.

(** *** The values of a chunk *)

Lemma row_values_covered columns row :
  covers columns row = true ->
  mapM (getitem row) columns = Return (project columns row).
Proof.
  induction columns as [|k columns IH]; simpl; intros H; [reflexivity|].
  apply andb_prop in H as [Hk Hrest]. unfold getitem at 1.
  destruct (get row k); [|discriminate]. rewrite (IH Hrest). reflexivity.
Qed.

Lemma row_values_missing columns row :
  covers columns row = false ->
  exists k, In k columns /\ get row k = None
            /\ mapM (getitem row) columns = Raise (KeyError k).
Proof.
  induction columns as [|k columns IH]; simpl; intros H; [discriminate|].
  unfold getitem at 1. destruct (get row k) eqn:E.
  - simpl in H. destruct (IH H) as (k' & Hin & Hget & Hm).
    exists k'. rewrite Hm. auto.
  - exists k. auto.
Qed.

Lemma chunk_values_covered columns batch :
  forallb (covers columns) batch = true ->
  mapM (fun row => mapM (getitem row) columns) batch
  = Return (map (project columns) batch).
Proof.
  induction batch as [|row batch IH]; simpl; intros H; [reflexivity|].
  apply andb_prop in H as [Hrow Hrest].
  rewrite (row_values_covered columns row Hrow), (IH Hrest). reflexivity.
Qed.

Lemma chunk_values_missing columns batch :
  forallb (covers columns) batch = false ->
  exists k row, In k columns /\ In row batch /\ get row k = None
    /\ mapM (fun row => mapM (getitem row) columns) batch = Raise (KeyError k).
Proof.
  induction batch as [|row batch IH]; simpl; intros H; [discriminate|].
  destruct (covers columns row) eqn:E.
  - simpl in H. destruct (IH H) as (k & r & Hk & Hr & Hget & Hm).
    exists k, r. rewrite (row_values_covered columns row E), Hm. auto.
  - destruct (row_values_missing columns row E) as (k & Hk & Hget & Hm).
    exists k, row. rewrite Hm. auto.
Qed.

(** Keys a row has besides the columns do not change what is sent. *)
Lemma project_ignores_other_keys columns row extra :
  covers columns row = true ->
  project columns (row ++ extra) = project columns row.
Proof.
  intros H. unfold project. apply map_ext_in. intros k Hk.
  unfold covers in H. rewrite forallb_forall in H. specialize (H k Hk).
  induction row as [|[k' v] row IH]; simpl in *; [discriminate|].
  destruct (String.eqb k k'); [reflexivity | apply IH, H].
Qed.

Section Batch.

Variable D : Driver.t.
Variable MAX_BATCH_SIZE : Z.
Variable h : handle.
Variable table : string.

(** The driver calls of the loop body, one at a time. *)
Lemma conn_cursor_at t :
  raises D t EvCursor = None ->
  conn_cursor D (open_at h t)
  = (Return fresh_cursor, open_at h (t ++ [EvCursor])).
Proof.
  intros H. unfold open_at. unfold_calls. simpl. rewrite H. reflexivity.
Qed.

Lemma cursor_executemany_at query rows t :
  raises D t (EvExecuteMany query rows) = None ->
  cursor_executemany D query rows (open_at h t)
  = (Return
       {| description := description_of D (t ++ [EvExecuteMany query rows]);
          rowcount := rowcount_of D (t ++ [EvExecuteMany query rows]) |},
     open_at h (t ++ [EvExecuteMany query rows])).
Proof.
  intros H. unfold open_at. unfold_calls. simpl. rewrite H. reflexivity.
Qed.

Lemma conn_commit_at t :
  raises D t EvCommit = None ->
  conn_commit D (open_at h t) = (Return tt, open_at h (t ++ [EvCommit])).
Proof.
  intros H. unfold open_at. unfold_calls. simpl. rewrite H. reflexivity.
Qed.

Lemma cursor_close_at t :
  raises D t EvCursorClose = None ->
  cursor_close D (open_at h t) = (Return tt, open_at h (t ++ [EvCursorClose])).
Proof.
  intros H. unfold open_at. unfold_calls. simpl. rewrite H. reflexivity.
Qed.

(** A chunk all of whose rows have the keys of its first row is sent in
    one call and committed. *)
Lemma insert_chunk_goes_through chunk t :
  never_raises D -> chunk <> [] -> chunk_ok chunk = true ->
  insert_chunk D table chunk (open_at h t)
  = (Return tt, open_at h (t ++ chunk_events table chunk)).
Proof.
  intros H Hne Hok. destruct chunk as [|first rest]; [contradiction|].
  unfold chunk_ok, chunk_events in *. simpl chunk_columns in *.
  unfold insert_chunk, bind, lift.
  change (index (first :: rest) 0) with (Return first). cbv beta iota.
  rewrite conn_cursor_at by apply H. cbv beta iota.
  rewrite (chunk_values_covered _ _ Hok). cbv beta iota.
  rewrite cursor_executemany_at by apply H. cbv beta iota.
  rewrite conn_commit_at by apply H. cbv beta iota.
  rewrite cursor_close_at by apply H.
  rewrite <- !app_assoc. reflexivity.
Qed.

(** A chunk with a row that lacks a key of its first row stops at the
    lookup, after the cursor was made and before anything is executed. *)
Lemma insert_chunk_missing_key chunk t :
  raises D t EvCursor = None -> chunk <> [] -> chunk_ok chunk = false ->
  exists k row,
    In k (chunk_columns chunk) /\ In row chunk /\ get row k = None
    /\ insert_chunk D table chunk (open_at h t)
       = (Raise (KeyError k), open_at h (t ++ [EvCursor])).
Proof.
  intros H Hne Hbad. destruct chunk as [|first rest]; [contradiction|].
  unfold chunk_ok in Hbad. simpl chunk_columns in *.
  destruct (chunk_values_missing _ _ Hbad) as (k & row & Hk & Hrow & Hget & Hm).
  exists k, row. repeat split; try assumption.
  unfold insert_chunk, bind, lift.
  change (index (first :: rest) 0) with (Return first). cbv beta iota.
  rewrite conn_cursor_at by exact H. cbv beta iota. rewrite Hm. reflexivity.
Qed.

(** A chunk the driver rejects: the error leaves the loop body right
    after the failed call, with no rollback sent. *)
Lemma insert_chunk_rejected chunk t msg :
  let columns := chunk_columns chunk in
  let sent := EvExecuteMany (insert_sql table columns)
                            (map (project columns) chunk) in
  chunk <> [] -> chunk_ok chunk = true ->
  raises D t EvCursor = None ->
  raises D (t ++ [EvCursor]) sent = Some msg ->
  insert_chunk D table chunk (open_at h t)
  = (Raise (Error msg), open_at h (t ++ [EvCursor; sent])).
Proof.
  intros columns sent Hne Hok Hcur Hexe. subst columns sent.
  destruct chunk as [|first rest]; [contradiction|].
  unfold chunk_ok in *. simpl chunk_columns in *.
  unfold insert_chunk, bind, lift.
  change (index (first :: rest) 0) with (Return first). cbv beta iota.
  rewrite conn_cursor_at by exact Hcur. cbv beta iota.
  rewrite (chunk_values_covered _ _ Hok). cbv beta iota.
  unfold cursor_executemany, open_at. unfold_calls. cbn [connection trace].
  rewrite Hexe. rewrite <- app_assoc. reflexivity.
Qed.

(** With no connection, a chunk stops at the attribute lookup. *)
Lemma insert_chunk_not_connected chunk t :
  chunk <> [] ->
  insert_chunk D table chunk (closed_at t)
  = (Raise (AttributeError "'NoneType' object has no attribute 'cursor'"),
     closed_at t).
Proof. destruct chunk; [contradiction | reflexivity]. Qed.

(** The loop over chunks that can all be sent. *)
Lemma insert_batch_loop_goes_through rows bs :
  never_raises D ->
  forall starts t total,
    Forall sendable (slices rows bs starts) ->
    insert_batch_loop D table rows bs starts total (open_at h t)
    = (Return (total + len (concat (slices rows bs starts)))%Z,
       open_at h (t ++ flat_map (chunk_events table) (slices rows bs starts))).
Proof.
  intros H. induction starts as [|i starts IH]; intros t total Hall.
  - simpl. unfold ret, len. simpl. rewrite Z.add_0_r, app_nil_r. reflexivity.
  - cbn [slices map] in Hall. inversion Hall as [|c cs [Hne Hok] Hrest]; subst.
    cbn [insert_batch_loop slices map concat flat_map]. unfold bind.
    rewrite (insert_chunk_goes_through t H Hne Hok).
    fold (slices rows bs starts). rewrite (IH _ _ Hrest).
    rewrite len_app, <- app_assoc, Z.add_assoc. reflexivity.
Qed.

(** The loop stops at the first chunk with a row that lacks a key. *)
Lemma insert_batch_loop_stops rows bs :
  never_raises D ->
  forall before starts t total bad after,
    slices rows bs starts = before ++ bad :: after ->
    Forall sendable before -> bad <> [] -> chunk_ok bad = false ->
    exists k row,
      In k (chunk_columns bad) /\ In row bad /\ get row k = None
      /\ insert_batch_loop D table rows bs starts total (open_at h t)
         = (Raise (KeyError k),
            open_at h (t ++ flat_map (chunk_events table) before
                         ++ [EvCursor])).
Proof.
  intros H. induction before as [|c before IH];
    intros starts t total bad after Hsplit Hbefore Hne Hbad;
    (destruct starts as [|i starts]; [discriminate|]);
    cbn [slices map app] in Hsplit; injection Hsplit as Hc Hrest.
  - destruct (insert_chunk_missing_key t (H _ _) Hne Hbad)
      as (k & row & Hk & Hrow & Hget & Hrun).
    exists k, row. repeat split; try assumption.
    cbn [insert_batch_loop]. unfold bind. rewrite Hc, Hrun. reflexivity.
  - inversion Hbefore as [|? ? [Hcne Hcok] Hbefore']; subst.
    destruct (IH starts (t ++ chunk_events table (slice rows i (i + bs)))
                 (total + len (slice rows i (i + bs)))%Z bad after
                 Hrest Hbefore' Hne Hbad)
      as (k & row & Hk & Hrow & Hget & Hrun).
    exists k, row. repeat split; try assumption.
    cbn [insert_batch_loop flat_map]. unfold bind.
    rewrite (insert_chunk_goes_through t H Hcne Hcok), Hrun.
    rewrite <- !app_assoc. reflexivity.
Qed.

(** On rows and a positive size, [insert_batch] is its loop over the
    chunks. *)
Lemma insert_batch_as_loop rows batch_size :
  rows <> [] -> (0 < chunk_size MAX_BATCH_SIZE batch_size)%Z ->
  exists starts,
    slices rows (chunk_size MAX_BATCH_SIZE batch_size) starts
    = chunks (Z.to_nat (chunk_size MAX_BATCH_SIZE batch_size)) rows
    /\ forall m,
        insert_batch D MAX_BATCH_SIZE table rows batch_size m
        = insert_batch_loop D table rows
            (chunk_size MAX_BATCH_SIZE batch_size) starts 0 m.
Proof.
  intros Hne Hb.
  destruct (range_chunks rows Hb) as (starts & Hrange & Hslices).
  exists starts. split; [exact Hslices|]. intros m.
  destruct rows as [|r rows]; [contradiction|].
  unfold insert_batch, bind, lift. fold (chunk_size MAX_BATCH_SIZE batch_size).
  rewrite Hrange. reflexivity.
Qed.

(** With no connection, [insert_batch] of rows fails on the attribute
    lookup for the first chunk. *)
Lemma insert_batch_not_connected rows batch_size t :
  rows <> [] -> (0 < chunk_size MAX_BATCH_SIZE batch_size)%Z ->
  insert_batch D MAX_BATCH_SIZE table rows batch_size (closed_at t)
  = (Raise (AttributeError "'NoneType' object has no attribute 'cursor'"),
     closed_at t).
Proof.
  intros Hne Hb.
  destruct (insert_batch_as_loop batch_size Hne Hb) as (starts & Hsl & Hrun).
  rewrite Hrun.
  assert (Hn : (0 < Z.to_nat (chunk_size MAX_BATCH_SIZE batch_size))%nat)
    by lia.
  pose proof (chunks_upto_sizes Hn (length rows) rows) as Hsz.
  fold (chunks (Z.to_nat (chunk_size MAX_BATCH_SIZE batch_size)) rows) in Hsz.
  rewrite <- Hsl in Hsz.
  destruct starts as [|i starts].
  - destruct rows as [|r rows]; [contradiction|].
    rewrite (chunks_cons r rows Hn) in Hsl. discriminate Hsl.
  - cbn [slices map] in Hsz. inversion Hsz as [|c cs Hc _]; subst.
    cbn [insert_batch_loop]. unfold bind.
    rewrite insert_chunk_not_connected; [reflexivity|].
    intros E. rewrite E in Hc. simpl in Hc. lia.
Qed.

(** Rows with the same keys make chunks that can be sent. *)
Lemma uniform_chunks_sendable rows n :
  (0 < n)%nat -> uniform_keys rows -> Forall sendable (chunks n rows).
Proof.
  intros Hn Hu. apply Forall_forall. intros c Hc.
  assert (Hin : forall r, In r c -> In r rows).
  { intros r Hr. rewrite <- (concat_chunks rows Hn).
    apply in_concat. exists c. auto. }
  pose proof (chunks_upto_sizes Hn (length rows) rows) as Hsz.
  rewrite Forall_forall in Hsz. specialize (Hsz c Hc).
  destruct c as [|first rest]; [simpl in Hsz; lia|].
  split; [discriminate|].
  unfold chunk_ok. cbn [chunk_columns]. apply forallb_forall. intros r Hr.
  unfold covers. apply forallb_forall. intros k Hk.
  assert (Hkr : In k (keys r)).
  { apply (Hu first r (Hin first (or_introl eq_refl)) (Hin r Hr)), Hk. }
  destruct (ReaderFacts.get_some r k Hkr) as [v ->]. reflexivity.
Qed.

Lemma sendable_of_ok n rows part :
  (0 < n)%nat -> incl part (chunks n rows) ->
  forallb chunk_ok part = true -> Forall sendable part.
Proof.
  intros Hn Hincl Hok. apply Forall_forall. intros c Hc. split.
  - pose proof (chunks_upto_sizes Hn (length rows) rows) as Hsz.
    rewrite Forall_forall in Hsz. specialize (Hsz c (Hincl c Hc)).
    intros ->. simpl in Hsz. lia.
  - rewrite forallb_forall in Hok. apply Hok, Hc.
Qed.

(** C3.  [insert_batch] of no rows returns 0 and leaves the manager and the
    driver untouched.  For rows that all have the same keys, an open
    connection, a positive chunk size [b] and a driver that accepts every
    call, it sends the rows in consecutive chunks of [b] (the chunks put end
    to end are the rows, each has at most [b] rows and each but the last
    exactly [b]), one execution call per chunk followed by a commit,
    [ceil (n / b)] execution calls in all, and returns the number of rows. *)
Theorem insert_batch_counts rows batch_size t :
  let b := chunk_size MAX_BATCH_SIZE batch_size in
  let cs := chunks (Z.to_nat b) rows in
  let sent := flat_map (chunk_events table) cs in
  (forall m,
      insert_batch D MAX_BATCH_SIZE table [] batch_size m = (Return 0%Z, m))
  /\ (rows <> [] -> uniform_keys rows -> never_raises D -> (0 < b)%Z ->
      insert_batch D MAX_BATCH_SIZE table rows batch_size (open_at h t)
      = (Return (len rows), open_at h (t ++ sent))
      /\ concat cs = rows
      /\ Forall (fun c => (0 < length c <= Z.to_nat b)%nat) cs
      /\ Forall (fun c => length c = Z.to_nat b) (removelast cs)
      /\ Z.of_nat (executions sent) = ceil_div (len rows) b).
Proof.
  intros b cs sent. split; [reflexivity|].
  intros Hne Hu H Hb.
  assert (Hn : (0 < Z.to_nat b)%nat) by lia.
  destruct (insert_batch_as_loop batch_size Hne Hb) as (starts & Hsl & Hrun).
  fold b in Hsl, Hrun. fold cs in Hsl.
  split; [|split; [|split; [|split]]].
  - rewrite Hrun, (insert_batch_loop_goes_through rows b H).
    + rewrite Hsl. subst cs. rewrite (concat_chunks rows Hn). reflexivity.
    + rewrite Hsl. apply (uniform_chunks_sendable Hn Hu).
  - apply (concat_chunks rows Hn).
  - apply (chunks_upto_sizes Hn).
  - apply (chunks_upto_full Hn).
  - subst sent. rewrite executions_chunks. subst cs.
    rewrite (length_chunks rows Hn). rewrite Z2Nat.id by lia. reflexivity.
Qed.

(** C10.  On rows, with an open connection, a positive chunk size and a
    driver that accepts every call, each chunk is sent under the keys of
    its own first row ([chunk_events] builds the statement and the values
    from [chunk_columns] of that chunk).  When every row of every chunk has
    the keys of the first row of its chunk, all chunks are sent.  At the
    first chunk with a row that lacks such a key, the call ends in
    [KeyError] for that key once the chunk's cursor is made and before the
    chunk is executed.  Keys a row has besides the columns do not change
    the values sent for it. *)
Theorem insert_batch_columns_per_chunk rows batch_size t :
  let b := chunk_size MAX_BATCH_SIZE batch_size in
  let cs := chunks (Z.to_nat b) rows in
  never_raises D -> (0 < b)%Z -> rows <> [] ->
  (forallb chunk_ok cs = true ->
     insert_batch D MAX_BATCH_SIZE table rows batch_size (open_at h t)
     = (Return (len rows),
        open_at h (t ++ flat_map (chunk_events table) cs)))
  /\ (forall before bad after,
        cs = before ++ bad :: after ->
        forallb chunk_ok before = true -> chunk_ok bad = false ->
        exists k row,
          In k (chunk_columns bad) /\ In row bad /\ get row k = None
          /\ insert_batch D MAX_BATCH_SIZE table rows batch_size (open_at h t)
             = (Raise (KeyError k),
                open_at h (t ++ flat_map (chunk_events table) before
                             ++ [EvCursor])))
  /\ (forall columns row extra,
        covers columns row = true ->
        project columns (row ++ extra) = project columns row).
Proof.
  intros b cs H Hb Hne.
  assert (Hn : (0 < Z.to_nat b)%nat) by lia.
  destruct (insert_batch_as_loop batch_size Hne Hb) as (starts & Hsl & Hrun).
  fold b in Hsl, Hrun. fold cs in Hsl.
  split; [|split].
  - intros Hok.
    rewrite Hrun, (insert_batch_loop_goes_through rows b H).
    + rewrite Hsl. subst cs. rewrite (concat_chunks rows Hn). reflexivity.
    + rewrite Hsl. apply (@sendable_of_ok _ rows cs Hn (incl_refl _) Hok).
  - intros before bad after Hsplit Hok Hbad.
    assert (Hbefore : Forall sendable before).
    { apply (@sendable_of_ok _ rows before Hn); [|exact Hok].
      fold cs. rewrite Hsplit. apply incl_appl, incl_refl. }
    assert (Hbne : bad <> []).
    { pose proof (chunks_upto_sizes Hn (length rows) rows) as Hsz.
      fold (chunks (Z.to_nat b) rows) in Hsz. fold cs in Hsz.
      rewrite Hsplit in Hsz. apply Forall_elt in Hsz.
      intros ->. simpl in Hsz. lia. }
    rewrite <- Hsl in Hsplit.
    destruct (@insert_batch_loop_stops rows b H before starts t 0%Z bad after
                Hsplit Hbefore Hbne Hbad)
      as (k & row & Hk & Hrow & Hget & Hstop).
    exists k, row. rewrite Hrun. auto.
  - apply project_ignores_other_keys.
Qed.

End Batch.

End BatchFacts.

(** ** Operations on a manager that has no connection *)

Module GuardFacts.

Import Py Driver Facade Spec.
Local Open Scope string_scope.
Local Open Scope list_scope.

(** C2 (the code departs from it).  With no connection, [update], [delete]
    and [insert_batch] of at least one row (in chunks of a positive size) do
    not fail with the not-connected error.  They do not go through
    [_execute_query], whose first step is the test of [self.connection]:
    they call [self.connection.cursor()] on [None] and raise
    [AttributeError].  The six operations that go through [_execute_query]
    ([insert], [query], [create_table], [drop_table], [table_exists],
    [get_table_columns]) raise the not-connected error.
    In every case the manager is as it was and no call reached the
    driver. *)
Theorem unguarded_operations_without_connection D MAX t table data
  where_clause where_params rows batch_size return_id query_str params
  return_df columns primary_key if_not_exists if_exists :
  rows <> [] ->
  (0 < chunk_size MAX batch_size)%Z ->
  let m := closed_at t in
  let e := AttributeError "'NoneType' object has no attribute 'cursor'" in
  update D table data where_clause where_params m = (Raise e, m)
  /\ delete D table where_clause where_params m = (Raise e, m)
  /\ insert_batch D MAX table rows batch_size m = (Raise e, m)
  /\ e <> not_connected
  /\ insert D table data return_id m = (Raise not_connected, m)
  /\ query D query_str params return_df m = (Raise not_connected, m)
  /\ create_table D table columns primary_key if_not_exists m
     = (Raise not_connected, m)
  /\ drop_table D table if_exists m = (Raise not_connected, m)
  /\ table_exists D table m = (Raise not_connected, m)
  /\ get_table_columns D table m = (Raise not_connected, m).
Proof.
  intros Hrows Hsize m e.
  destruct (FacadeFacts.not_connected_operations D MAX t table data return_id
              query_str params return_df columns primary_key if_not_exists
              if_exists batch_size)
    as (Hinsert & Hquery & Hcreate & Hdrop & Hexists & Hcolumns & _).
  split; [apply FacadeFacts.update_not_connected|].
  split; [apply FacadeFacts.delete_not_connected|].
  split; [apply (BatchFacts.insert_batch_not_connected D MAX table batch_size
                   t Hrows Hsize)|].
  split; [discriminate|].
  repeat split; assumption.
Qed.

End GuardFacts.

(** ** The code run on the inputs of [Demo] *)

Module Runs.

Import Py Driver Facade Spec Demo.
Local Open Scope string_scope.
Local Open Scope list_scope.

Lemma quiet_never_raises : never_raises quiet.
Proof. intros log ev. reflexivity. Qed.

Lemma users_uniform : uniform_keys users.
Proof.
  assert (H : forall r, In r users -> keys r = ["name"; "email"]).
  { intros r [<-|[<-|[<-|[]]]]; reflexivity. }
  intros r r' Hr Hr' k. rewrite (H r Hr), (H r' Hr'). reflexivity.
Qed.

(** [get_reader] on the three file names of the specification. *)
Lemma get_reader_by_extension_witness :
  Readers.get_reader Readers.name_suffix "test.csv" = Return Readers.CSVReader
  /\ Readers.get_reader Readers.name_suffix "test.json"
     = Return Readers.JSONReader
  /\ Readers.get_reader Readers.name_suffix "test.txt"
     = Raise (ValueError
         ("Unsupported file format: .txt. Supported formats: "
          ++ "['.csv', '.json', '.sql', '.pdf', '.xlsx', '.xls']")).
Proof.
  split; [|split].
  - apply (ReaderFacts.get_reader_by_extension Readers.name_suffix "test.csv").
    reflexivity.
  - apply (ReaderFacts.get_reader_by_extension Readers.name_suffix "test.json").
    reflexivity.
  - apply (ReaderFacts.get_reader_by_extension Readers.name_suffix "test.txt").
    vm_compute. intros H.
    repeat (destruct H as [H|H]; [discriminate H|]). exact H.
Defined.

(** Three fragments with whitespace around them, the second one empty
    once stripped: the statements are the first and the third, bare. *)
Lemma statements_split_trim_drop_witness :
  Readers.statements "  SELECT 1  ;   ; select 2 " = ["SELECT 1"; "select 2"].
Proof.
  destruct (ReaderFacts.statements_split_trim_drop
              "  SELECT 1  ;   ; select 2 ")
    as (_ & _ & trimmed & Htrim & ->).
  change (PyStr.split ";" "  SELECT 1  ;   ; select 2 ")
    with ["  SELECT 1  "; "   "; " select 2 "] in Htrim.
  inversion Htrim as [|f1 t1 fs1 ts1 H1 Hr1]; subst.
  inversion Hr1 as [|f2 t2 fs2 ts2 H2 Hr2]; subst.
  inversion Hr2 as [|f3 t3 fs3 ts3 H3 Hr3]; subst.
  inversion Hr3; subst.
  rewrite (ReaderFacts.trimmed_of_strip H1), (ReaderFacts.trimmed_of_strip H2),
    (ReaderFacts.trimmed_of_strip H3).
  reflexivity.
Defined.

Example statements_keep_inner_whitespace :
  Readers.statements "SELECT 1  ; SELECT 2 " = ["SELECT 1"; "SELECT 2"]
  /\ Readers.statements " a  b ;;c" = ["a  b"; "c"]
  /\ Readers.statements " ; ;; " = [].
Proof. repeat split. Qed.

(** An [update] the database rejects: the log ends at the failed call. *)
Lemma update_failure_without_rollback_witness :
  update rejecting "users" [("email", VStr "new@example.com")] "id = %s"
         (Some [VInt 1]) connected
  = (Raise (Error "syntax error"),
     open_at 0
       [ EvConnect; EvCursor;
         EvExecute "UPDATE users SET email = %s WHERE id = %s"
                   (Some [VStr "new@example.com"; VInt 1]) ]).
Proof.
  apply (proj1 (@FacadeFacts.update_failure_without_rollback
                  rejecting 0 [EvConnect] "users"
                  [("email", VStr "new@example.com")] "id = %s"
                  (Some [VInt 1]) "syntax error" eq_refl eq_refl)).
Defined.

(** The same statement sent through [_execute_query] is rolled back. *)
Example execute_query_rejected :
  _execute_query rejecting "UPDATE users SET email = 'x'" None
                 false false true connected
  = (Raise (Error "syntax error"),
     open_at 0 [ EvConnect; EvCursor;
                 EvExecute "UPDATE users SET email = 'x'" None;
                 EvRollback; EvCursorClose ]).
Proof. reflexivity. Qed.

Example delete_rejected :
  delete rejecting "users" "id = %s" (Some [VInt 1]) connected
  = (Raise (Error "syntax error"),
     open_at 0 [ EvConnect; EvCursor;
                 EvExecute "DELETE FROM users WHERE id = %s"
                           (Some [VInt 1]) ]).
Proof. reflexivity. Qed.

Example insert_batch_rejected :
  insert_batch rejecting 1000 "users" users None connected
  = (Raise (Error "syntax error"),
     open_at 0 [ EvConnect; EvCursor;
                 EvExecuteMany
                   "INSERT INTO users (name, email) VALUES (%s, %s)"
                   [ [VStr "John"; VStr "john@example.com"];
                     [VStr "Jane"; VStr "jane@example.com"];
                     [VStr "Ann"; VStr "ann@example.com"] ] ]).
Proof. reflexivity. Qed.

(** A manager on which [connect] was never called: [update], [delete] and
    [insert_batch] of three rows raise [AttributeError], [insert] raises
    the not-connected error. *)
Lemma unguarded_operations_without_connection_witness :
  let e := AttributeError "'NoneType' object has no attribute 'cursor'" in
  update quiet "users" [("email", VStr "new@example.com")] "id = %s"
         (Some [VInt 1]) init
  = (Raise e, init)
  /\ delete quiet "users" "id = %s" (Some [VInt 1]) init = (Raise e, init)
  /\ insert_batch quiet 1000 "users" users None init = (Raise e, init)
  /\ insert quiet "users" [("email", VStr "new@example.com")] false init
     = (Raise (Error "Not connected to database"), init).
Proof.
  intros e.
  destruct (@GuardFacts.unguarded_operations_without_connection quiet 1000%Z
              [] "users" [("email", VStr "new@example.com")] "id = %s"
              (Some [VInt 1]) users None false "SELECT 1" None false [] None
              false false)
    as (Hupdate & Hdelete & Hbatch & _ & Hinsert & _).
  - discriminate.
  - reflexivity.
  - repeat split; assumption.
Defined.

(** Of no rows, [insert_batch] returns 0 before it looks at the
    connection. *)
Example insert_batch_empty_without_connection :
  insert_batch quiet 1000 "users" [] None init = (Return 0%Z, init).
Proof. reflexivity. Qed.

Example update_without_connection :
  fst (update quiet "users" [("email", VStr "x")] "id = 1" None init)
  = Raise (AttributeError "'NoneType' object has no attribute 'cursor'").
Proof. reflexivity. Qed.

Example query_without_connection :
  query quiet "SELECT 1" None false init
  = (Raise (Error "Not connected to database"), init).
Proof. reflexivity. Qed.

(** Three rows in chunks of two: two execution calls, each committed. *)
Lemma insert_batch_counts_witness :
  insert_batch quiet 1000 "users" users (Some 2%Z) connected
  = (Return 3%Z,
     open_at 0
       [ EvConnect;
         EvCursor;
         EvExecuteMany "INSERT INTO users (name, email) VALUES (%s, %s)"
                       [ [VStr "John"; VStr "john@example.com"];
                         [VStr "Jane"; VStr "jane@example.com"] ];
         EvCommit; EvCursorClose;
         EvCursor;
         EvExecuteMany "INSERT INTO users (name, email) VALUES (%s, %s)"
                       [ [VStr "Ann"; VStr "ann@example.com"] ];
         EvCommit; EvCursorClose ])
  /\ Z.of_nat (executions
       (flat_map (chunk_events "users") (chunks 2 users))) = 2%Z.
Proof.
  destruct (@BatchFacts.insert_batch_counts quiet 1000%Z 0 "users" users
              (Some 2%Z) [EvConnect]) as [_ Hrows].
  destruct Hrows as (Hrun & _ & _ & _ & Hcount).
  - discriminate.
  - exact users_uniform.
  - exact quiet_never_raises.
  - reflexivity.
  - split; [exact Hrun | exact Hcount].
Defined.

(** The second file of the specification, its SELECT in small letters and
    followed by a statement that only holds the word: the first is
    committed, the second fetched, the third committed, and the rows of the
    second come back. *)
Lemma execute_from_sql_file_in_order_witness :
  let content := "CREATE TABLE t(x INT); select 1; DROP TABLE select_log;" in
  let fs := one_file "init.sql" content in
  let run := execute_from_sql_file quiet fs "init.sql" connected in
  snd run
  = open_at 0 [ EvConnect;
                EvCursor; EvExecute "CREATE TABLE t(x INT)" None;
                EvCommit; EvCursorClose;
                EvCursor; EvExecute "select 1" None;
                EvFetchAll; EvCursorClose;
                EvCursor; EvExecute "DROP TABLE select_log" None;
                EvCommit; EvCursorClose ]
  /\ fst run = Return (ORows [[VInt 8; VInt 0]])
  /\ is_select "select 1" = prefix_nocase "SELECT" "select 1".
Proof.
  intros content fs run.
  destruct (@FacadeFacts.execute_from_sql_file_in_order quiet fs 0
              [EvConnect] "init.sql" content
              quiet_never_raises eq_refl) as (Hlog & _ & Hlast & Hcase).
  split; [|split].
  - exact Hlog.
  - exact (Hlast ["CREATE TABLE t(x INT)"] "select 1"
                 ["DROP TABLE select_log"] eq_refl eq_refl eq_refl).
  - exact (Hcase "select 1").
Defined.

(** The prefix match on its own: case is ignored, the word must come
    first, and nothing is skipped before it. *)
Example prefix_nocase_cases :
  prefix_nocase "SELECT" "SELECT 1" = true
  /\ prefix_nocase "SELECT" "select 1" = true
  /\ prefix_nocase "SELECT" "SeLeCt * FROM t" = true
  /\ prefix_nocase "SELECT" "selection" = true
  /\ prefix_nocase "SELECT" "(SELECT 1)" = false
  /\ prefix_nocase "SELECT" "WITH x AS (SELECT 1) SELECT * FROM x" = false
  /\ prefix_nocase "SELECT" "SELEC" = false
  /\ prefix_nocase "SELECT" "sElEkT 1" = false
  /\ prefix_nocase "SELECT" "3%,%#4 1" = false.
Proof. repeat split. Qed.

Example is_select_cases :
  is_select "SELECT 1" = true
  /\ is_select "select 1" = true
  /\ is_select "SeLeCt * FROM t" = true
  /\ is_select "selection" = true
  /\ is_select "(SELECT 1)" = false
  /\ is_select "WITH x AS (SELECT 1) SELECT * FROM x" = false
  /\ is_select "INSERT INTO t SELECT 1" = false.
Proof. repeat split. Qed.

(** A file whose only statement is a SELECT in mixed case. *)
Example mixed_case_select_is_fetched :
  execute_from_sql_file quiet (one_file "q.sql" "Select x From t")
                        "q.sql" connected
  = (Return (ORows [[VInt 4; VInt 0]]),
     open_at 0 [ EvConnect;
                 EvCursor; EvExecute "Select x From t" None;
                 EvFetchAll; EvCursorClose ]).
Proof. reflexivity. Qed.

Example two_selects_return_the_last :
  execute_from_sql_file quiet (one_file "q.sql" "SELECT 1; SELECT 2;")
                        "q.sql" connected
  = (Return (ORows [[VInt 8; VInt 0]]),
     open_at 0 [ EvConnect;
                 EvCursor; EvExecute "SELECT 1" None;
                 EvFetchAll; EvCursorClose;
                 EvCursor; EvExecute "SELECT 2" None;
                 EvFetchAll; EvCursorClose ]).
Proof. reflexivity. Qed.

(** A query with rows, asked for as a table. *)
Lemma query_frame_of_rows_raises_witness :
  exists e,
    fst (query quiet "SELECT a, b FROM t" None true connected) = Raise e
    /\ (e = TypeError "'NoneType' object is not iterable"
        \/ exists msg, e = Error msg).
Proof.
  apply (@FacadeFacts.query_frame_of_rows_raises quiet "SELECT a, b FROM t"
           None connected [[VInt 4; VInt 0]]
           (open_at 0 [ EvConnect; EvCursor;
                        EvExecute "SELECT a, b FROM t" None;
                        EvFetchAll; EvCursorClose ])).
  - reflexivity.
  - discriminate.
Defined.

Example query_frame_run :
  query quiet "SELECT a, b FROM t" None true connected
  = (Raise (TypeError "'NoneType' object is not iterable"),
     open_at 0 [ EvConnect; EvCursor;
                 EvExecute "SELECT a, b FROM t" None;
                 EvFetchAll; EvCursorClose; EvCursor ]).
Proof. reflexivity. Qed.

Example query_raw_run :
  fst (query quiet "SELECT a, b FROM t" None false connected)
  = Return (Raw (ORows [[VInt 4; VInt 0]])).
Proof. reflexivity. Qed.

(** [disconnect] before and after [connect]. *)
Example disconnect_never_connected :
  disconnect quiet init = (Return ONone, init).
Proof. reflexivity. Qed.

Example disconnect_connected :
  disconnect quiet connected
  = (Return (OValue (VBool true)), open_at 0 [EvConnect; EvClose]).
Proof. reflexivity. Qed.

(** An insert that asks for the id: the id comes back, no commit is sent. *)
Lemma insert_return_id_witness :
  insert quiet "users" [("name", VStr "John")] true connected
  = (Return (OValue (VInt 7)),
     open_at 0 [ EvConnect; EvCursor;
                 EvExecute "INSERT INTO users (name) VALUES (%s) RETURNING id"
                           (Some [VStr "John"]);
                 EvFetchOne; EvCursorClose ]).
Proof.
  apply (proj2 (@FacadeFacts.insert_return_id_returns_before_commit
                  quiet "users" [("name", VStr "John")] connected)
               quiet_never_raises 0 eq_refl).
Defined.

Example insert_plain_run :
  insert quiet "users" [("name", VStr "John")] false connected
  = (Return ONone,
     open_at 0 [ EvConnect; EvCursor;
                 EvExecute "INSERT INTO users (name) VALUES (%s)"
                           (Some [VStr "John"]);
                 EvCommit; EvCursorClose ]).
Proof. reflexivity. Qed.

(** Rows of different shapes in chunks of two: the first chunk goes under
    the keys of its first row, the second under the key of the third row,
    which the fourth row lacks. *)
Lemma insert_batch_columns_per_chunk_witness :
  insert_batch quiet 1000 "t" mixed (Some 2%Z) connected
  = (Raise (KeyError "c"),
     open_at 0
       [ EvConnect;
         EvCursor;
         EvExecuteMany "INSERT INTO t (a, b) VALUES (%s, %s)"
                       [ [VInt 1; VInt 2]; [VInt 4; VInt 3] ];
         EvCommit; EvCursorClose;
         EvCursor ]).
Proof.
  destruct (@BatchFacts.insert_batch_columns_per_chunk quiet 1000%Z 0 "t"
              mixed (Some 2%Z) [EvConnect] quiet_never_raises eq_refl)
    as (_ & Hstop & _); [discriminate|].
  destruct (Hstop [[ [("a", VInt 1); ("b", VInt 2)];
                     [("b", VInt 3); ("a", VInt 4); ("c", VInt 5)] ]]
                  [ [("c", VInt 6)]; [("a", VInt 7)] ] []
                  eq_refl eq_refl eq_refl)
    as (k & row & Hk & _ & _ & Hrun).
  destruct Hk as [<-|[]]. exact Hrun.
Defined.

Example two_shapes_run :
  insert_batch quiet 1000 "t" two_shapes (Some 1%Z) connected
  = (Return 2%Z,
     open_at 0
       [ EvConnect;
         EvCursor; EvExecuteMany "INSERT INTO t (a) VALUES (%s)" [[VInt 1]];
         EvCommit; EvCursorClose;
         EvCursor; EvExecuteMany "INSERT INTO t (b) VALUES (%s)" [[VInt 2]];
         EvCommit; EvCursorClose ]).
Proof. reflexivity. Qed.

(** A chunk size that is not positive: nothing is sent for a negative
    one, and zero is refused by [range]. *)
Example negative_batch_size :
  insert_batch quiet 1000 "users" users (Some (-1)%Z) connected
  = (Return 0%Z, connected).
Proof. reflexivity. Qed.

Example zero_batch_size :
  fst (insert_batch quiet 1000 "users" users (Some 0%Z) connected)
  = Raise (ValueError "range() arg 3 must not be zero").
Proof. reflexivity. Qed.

End Runs.

(** ** More on the readers *)

Module SplitterFacts.

Import Py PyStr Readers PyStrFacts ReaderFacts.
Local Open Scope string_scope.

Lemma all_chars_app p a b :
  all_chars p (a ++ b) = all_chars p a && all_chars p b.
Proof.
  induction a as [|c a IH]; simpl; [reflexivity|].
  rewrite IH. apply andb_assoc.
Qed.

(** Splitting a text that holds a separator: the fragments before it, then
    those after it. *)
Lemma split_app_sep sep a b :
  split sep (a ++ String sep b) = (split sep a ++ split sep b)%list.
Proof.
  induction a as [|c a IH]; simpl.
  - rewrite Ascii.eqb_refl. reflexivity.
  - destruct (Ascii.eqb c sep); rewrite IH; [reflexivity|].
    pose proof (split_nonempty sep a) as Hn.
    destruct (split sep a) as [|frag frags]; [contradiction | reflexivity].
Qed.

Lemma split_without_sep sep s :
  all_chars (fun c => negb (Ascii.eqb c sep)) s = true -> split sep s = [s].
Proof.
  induction s as [|c s IH]; simpl; intros H; [reflexivity|].
  apply andb_prop in H as [Hc Hs]. apply negb_true_iff in Hc.
  rewrite Hc, (IH Hs). reflexivity.
Qed.

Lemma stripped_nonempty_app a b :
  stripped_nonempty (a ++ b)
  = (stripped_nonempty a ++ stripped_nonempty b)%list.
Proof.
  induction a as [|s a IH]; simpl; [reflexivity|].
  destruct (truthy (strip s)); rewrite IH; reflexivity.
Qed.

Lemma lstrip_id s : not_space (first_char s) -> lstrip s = s.
Proof. destruct s as [|c s]; simpl; [reflexivity|]. intros ->. reflexivity. Qed.

Lemma rstrip_id s : not_space (last_char s) -> rstrip s = s.
Proof.
  induction s as [|c s IH]; [reflexivity|].
  destruct s as [|d s].
  - simpl. intros ->. reflexivity.
  - intros H. change (rstrip (String c (String d s)))
      with (match rstrip (String d s) with
            | EmptyString => if isspace c then EmptyString
                             else String c EmptyString
            | kept => String c kept
            end).
    rewrite (IH H). reflexivity.
Qed.

Lemma strip_id s :
  not_space (first_char s) -> not_space (last_char s) -> strip s = s.
Proof.
  intros Hf Hl. unfold strip. rewrite (lstrip_id s Hf). apply rstrip_id, Hl.
Qed.

(** What is kept of fragments that hold no semicolon is clean. *)
Lemma stripped_fragments_clean fragments :
  Forall (fun frag => all_chars (fun c => negb (Ascii.eqb c ";")) frag = true)
         fragments ->
  Forall clean (stripped_nonempty fragments).
Proof.
  induction 1 as [|frag frags Hfrag _ IH]; simpl; [constructor|].
  destruct (truthy (strip frag)) eqn:E; [|exact IH].
  constructor; [|exact IH].
  destruct (strip_spec frag) as (a & b & Heq & _ & _ & Hf & Hl).
  repeat split; try assumption.
  rewrite Heq, !all_chars_app in Hfrag.
  apply andb_prop in Hfrag as [_ Hfrag].
  apply andb_prop in Hfrag as [Hfrag _]. exact Hfrag.
Qed.

(** The statements on both sides of a semicolon. *)
Lemma stripped_split_semicolon before after :
  stripped_nonempty (split ";" (before ++ String ";" after))
  = (stripped_nonempty (split ";" before)
     ++ stripped_nonempty (split ";" after))%list.
Proof. rewrite split_app_sep. apply stripped_nonempty_app. Qed.

Lemma statements_of_clean stmt : clean stmt -> statements stmt = [stmt].
Proof.
  intros (Ht & Hf & Hl & Hs). unfold statements.
  rewrite (split_without_sep ";" stmt Hs). simpl.
  rewrite (strip_id stmt Hf Hl), Ht. reflexivity.
Qed.

Lemma statements_join_clean stmts :
  Forall clean stmts -> statements (join ";" stmts) = stmts.
Proof.
  unfold join. induction 1 as [|stmt rest Hstmt Hrest IH]; [reflexivity|].
  destruct rest as [|next rest].
  - simpl. apply statements_of_clean, Hstmt.
  - change (String.concat ";" (stmt :: next :: rest))
      with (stmt ++ String ";" (String.concat ";" (next :: rest))).
    unfold statements in *. rewrite stripped_split_semicolon, IH.
    fold (statements stmt). rewrite (statements_of_clean Hstmt).
    reflexivity.
Qed.

(** X1.  Every statement [SQLReader.read] returns has characters, starts
    and ends with a character that is not whitespace, and holds no
    semicolon. *)
Theorem statements_clean (content : string) :
  Forall clean (statements content).
Proof.
  unfold statements. apply stripped_fragments_clean.
  apply split_no_sep.
Qed.

(** X2.  A semicolon always ends a statement, whatever surrounds it (a
    string literal, a comment, a procedure body): the statements of a text
    with a semicolon in it are those of the part before the semicolon, then
    those of the part after it. *)
Theorem statements_app_semicolon (before after : string) :
  statements (before ++ ";" ++ after)
  = (statements before ++ statements after)%list.
Proof.
  unfold statements. simpl append.
  apply stripped_split_semicolon.
Qed.

(** X3.  Writing the statements of a file back, one semicolon between two
    of them, and reading that text again gives the same statements. *)
Theorem statements_round_trip (content : string) :
  statements (join ";" (statements content)) = statements content.
Proof.
  apply statements_join_clean. unfold statements.
  apply stripped_fragments_clean, split_no_sep.
Qed.

End SplitterFacts.

(** ** What only [connect] changes *)

Module ConnectionFacts.

Import Py Driver Facade Spec FacadeFacts.
Local Open Scope string_scope.
Local Open Scope list_scope.

Create HintDb keeps.

Lemma keeps_ret {A} (a : A) : keeps_connection (ret a).
Proof. intros m. reflexivity. Qed.

Lemma keeps_raise {A} e : keeps_connection (@raise A e).
Proof. intros m. reflexivity. Qed.

Lemma keeps_lift {A} (o : outcome A) : keeps_connection (lift o).
Proof. intros m. reflexivity. Qed.

Lemma keeps_get_connection : keeps_connection get_connection.
Proof. intros m. reflexivity. Qed.

Lemma keeps_get_trace : keeps_connection get_trace.
Proof. intros m. reflexivity. Qed.

Lemma keeps_connection_attr attr : keeps_connection (connection_attr attr).
Proof. intros [[c|] t]; reflexivity. Qed.

Lemma keeps_bind {A B} (c : M A) (k : A -> M B) :
  keeps_connection c -> (forall a, keeps_connection (k a)) ->
  keeps_connection (bind c k).
Proof.
  intros Hc Hk m. unfold bind. specialize (Hc m).
  destruct (c m) as [[a|e] m']; simpl in *; [|exact Hc].
  rewrite (Hk a m'). exact Hc.
Qed.

Lemma keeps_except_Error {A} (body : M A) handler :
  keeps_connection body -> keeps_connection handler ->
  keeps_connection (except_Error body handler).
Proof.
  intros Hb Hh m. unfold except_Error. specialize (Hb m).
  destruct (body m) as [[a|[]] m']; simpl in *; try exact Hb.
  specialize (Hh m').
  destruct (handler m') as [[|] m'']; simpl in *; congruence.
Qed.

Lemma keeps_finally {A} (body : M A) cleanup :
  keeps_connection body -> keeps_connection cleanup ->
  keeps_connection (finally body cleanup).
Proof.
  intros Hb Hc m. unfold finally. specialize (Hb m).
  destruct (body m) as [r m']. specialize (Hc m').
  destruct (cleanup m') as [[|] m'']; simpl in *; congruence.
Qed.

Lemma keeps_if {A} (b : bool) (c c' : M A) :
  keeps_connection c -> keeps_connection c' ->
  keeps_connection (if b then c else c').
Proof. destruct b; auto. Qed.

#[local] Hint Resolve keeps_ret keeps_raise keeps_lift keeps_get_connection
  keeps_get_trace keeps_connection_attr keeps_except_Error keeps_finally
  keeps_if : keeps.
#[local] Hint Extern 2 (keeps_connection (bind _ _)) =>
  apply keeps_bind; [|intros ?] : keeps.
#[local] Hint Extern 3 (keeps_connection (match ?x with _ => _ end)) =>
  destruct x : keeps.

Section Invariant.

Variable D : Driver.t.
Variable MAX_BATCH_SIZE : Z.

Lemma keeps_call ev : keeps_connection (call D ev).
Proof.
  intros m. unfold call. destruct (raises D (trace m) ev); reflexivity.
Qed.

Hint Resolve keeps_call : keeps.

Ltac keeps :=
  unfold rollback_if_connected, conn_cursor, conn_commit, conn_rollback,
    conn_close, cursor_execute, cursor_executemany, cursor_fetchall,
    cursor_fetchone, cursor_close;
  auto 12 with keeps.

Lemma keeps_execute_query query params fetch fetch_one commit :
  keeps_connection (_execute_query D query params fetch fetch_one commit).
Proof.
  unfold _execute_query. apply keeps_bind; [auto with keeps|].
  intros [c|]; [|keeps].
  intros m.
  assert (Hcur : keeps_connection (conn_cursor D)) by keeps.
  specialize (Hcur m). destruct (conn_cursor D m) as [[cur|e] m'].
  - simpl in Hcur. rewrite <- Hcur.
    apply keeps_finally; [apply keeps_except_Error|];
      unfold execute_query_body; keeps.
  - simpl in Hcur. rewrite <- Hcur. apply keeps_except_Error; keeps.
Qed.

Hint Resolve keeps_execute_query : keeps.

Lemma keeps_insert_chunk table batch :
  keeps_connection (insert_chunk D table batch).
Proof. unfold insert_chunk. keeps. Qed.

Hint Resolve keeps_insert_chunk : keeps.

Lemma keeps_insert_batch_loop table rows bs starts total :
  keeps_connection (insert_batch_loop D table rows bs starts total).
Proof.
  revert total. induction starts as [|i starts IH]; intros total; simpl.
  - keeps.
  - apply keeps_bind; [keeps|]. intros _. apply IH.
Qed.

Hint Resolve keeps_insert_batch_loop : keeps.

Lemma keeps_run_statements statements results :
  keeps_connection (run_statements D statements results).
Proof.
  revert results. induction statements as [|s rest IH]; intros results; simpl.
  - keeps.
  - destruct (is_select s); (apply keeps_bind; [keeps|]); intros ?; apply IH.
Qed.

Hint Resolve keeps_run_statements : keeps.

(** X4.  Only [connect] assigns [self.connection]: every other operation of the
    facade leaves it as it found it, whether it returns or raises.  A
    failure never clears it, and neither does [disconnect]. *)
Theorem operations_keep_connection :
  (forall query params fetch fetch_one commit,
      keeps_connection (_execute_query D query params fetch fetch_one commit))
  /\ keeps_connection (disconnect D)
  /\ (forall table columns primary_key if_not_exists,
        keeps_connection
          (create_table D table columns primary_key if_not_exists))
  /\ (forall table if_exists, keeps_connection (drop_table D table if_exists))
  /\ (forall table data return_id,
        keeps_connection (insert D table data return_id))
  /\ (forall table rows batch_size,
        keeps_connection (insert_batch D MAX_BATCH_SIZE table rows batch_size))
  /\ (forall table data where_clause where_params,
        keeps_connection (update D table data where_clause where_params))
  /\ (forall table where_clause where_params,
        keeps_connection (delete D table where_clause where_params))
  /\ (forall query_str params return_df,
        keeps_connection (query D query_str params return_df))
  /\ (forall fs file_path,
        keeps_connection (execute_from_sql_file D fs file_path))
  /\ (forall table, keeps_connection (table_exists D table))
  /\ (forall table, keeps_connection (get_table_columns D table)).
Proof.
  repeat split; intros.
  - apply keeps_execute_query.
  - unfold disconnect. keeps.
  - unfold create_table. keeps.
  - unfold drop_table. keeps.
  - unfold insert. keeps.
  - unfold insert_batch. destruct rows; keeps.
  - unfold update. keeps.
  - unfold delete. keeps.
  - unfold query, new_cursor_column_names. keeps.
  - unfold execute_from_sql_file. keeps.
  - unfold table_exists. keeps.
  - unfold get_table_columns. keeps.
Qed.

End Invariant.

End ConnectionFacts.

(** ** Connecting, disconnecting and the scoped session *)

Module LifecycleFacts.

Import Py Driver Facade Spec FacadeFacts.
Local Open Scope string_scope.
Local Open Scope list_scope.
Local Open Scope py_scope.

Section Lifecycle.

Variable D : Driver.t.

Lemma connect_goes_through m :
  raises D (trace m) EvConnect = None ->
  connect D m
  = (Return true, open_at (length (trace m)) (trace m ++ [EvConnect])).
Proof. intros H. unfold connect, call. rewrite H. reflexivity. Qed.

Lemma connect_fails m msg :
  raises D (trace m) EvConnect = Some msg ->
  connect D m
  = (Raise (Error msg),
     {| connection := connection m; trace := trace m ++ [EvConnect] |}).
Proof. intros H. unfold connect, call. rewrite H. reflexivity. Qed.

(** X5.  The scoped session.  When the connection cannot be opened the block
    does not run and nothing is closed.  When it can, and the block leaves
    [self.connection] alone, the connection is closed after the block
    whether the block returned or raised, and the block's value or
    exception is the result. *)
Theorem with_manager_closes {A} (body : M A) (m : manager) :
  let entered := open_at (length (trace m)) (trace m ++ [EvConnect]) in
  (forall msg,
      raises D (trace m) EvConnect = Some msg ->
      with_manager D body m
      = (Raise (Error msg),
         {| connection := connection m; trace := trace m ++ [EvConnect] |}))
  /\ (keeps_connection body ->
      raises D (trace m) EvConnect = None ->
      raises D (trace (snd (body entered))) EvClose = None ->
      with_manager D body m
      = (fst (body entered),
         open_at (length (trace m))
                 (trace (snd (body entered)) ++ [EvClose]))).
Proof.
  intros entered. split.
  - intros msg H. unfold with_manager, __enter__, bind.
    rewrite (connect_fails m H). reflexivity.
  - intros Hkeeps Hconnect Hclose. unfold with_manager, __enter__, bind.
    rewrite (connect_goes_through m Hconnect). unfold ret. fold entered.
    specialize (Hkeeps entered).
    destruct (body entered) as [r [c t]]. simpl in *. subst c.
    unfold __exit__, disconnect, conn_close, connection_attr, get_connection,
      call, bind, ret. simpl. rewrite Hclose. reflexivity.
Qed.

(** X6.  [disconnect] closes the connection but keeps it in [self.connection]:
    an operation attempted afterwards is not refused as not connected, it
    asks the closed connection for a cursor; and a second [disconnect]
    closes the same connection again. *)
Theorem disconnect_keeps_the_connection h t :
  raises D t EvClose = None ->
  snd (disconnect D (open_at h t)) = open_at h (t ++ [EvClose])
  /\ (forall query params fetch fetch_one commit,
        exists evs,
          trace (snd ((disconnect D ;;
                       _execute_query D query params fetch fetch_one commit)
                        (open_at h t)))
          = t ++ EvClose :: EvCursor :: evs)
  /\ (raises D (t ++ [EvClose]) EvClose = None ->
      (disconnect D ;; disconnect D) (open_at h t)
      = (Return (OValue (VBool true)), open_at h (t ++ [EvClose; EvClose]))).
Proof.
  intros H. pose proof (disconnect_open D h t H) as Hd. split; [|split].
  - rewrite Hd. reflexivity.
  - intros query params fetch fetch_one commit. unfold bind at 1. rewrite Hd.
    unfold _execute_query, execute_query_body, open_at. unfold_calls. simpl.
    destruct fetch, fetch_one, commit; simpl; repeat next_call;
      rewrite <- ?app_assoc; simpl; eexists; reflexivity.
  - intros H'. unfold bind. rewrite Hd.
    rewrite (disconnect_open D h (t ++ [EvClose]) H').
    rewrite <- app_assoc. reflexivity.
Qed.

(** X7.  Connecting twice: the second connection replaces the first in
    [self.connection], and [disconnect] closes only that one. *)
Theorem reconnect_leaks_the_first m :
  accepts D (trace m) [EvConnect; EvConnect; EvClose] ->
  (connect D ;; connect D ;; disconnect D) m
  = (Return (OValue (VBool true)),
     open_at (S (length (trace m)))
             (trace m ++ [EvConnect; EvConnect; EvClose])).
Proof.
  intros (H1 & H2 & H3 & _). unfold bind.
  rewrite (connect_goes_through m H1).
  rewrite (connect_goes_through
             (open_at (length (trace m)) (trace m ++ [EvConnect])) H2).
  simpl trace. rewrite (disconnect_open D _ _ H3).
  rewrite length_app, <- !app_assoc. simpl. rewrite Nat.add_1_r. reflexivity.
Qed.

End Lifecycle.

End LifecycleFacts.

(** ** Statements, one at a time *)

Module StatementFacts.

Import Py Driver Facade Spec FacadeFacts.
Local Open Scope string_scope.
Local Open Scope list_scope.

Lemma accepts_app d log a b :
  accepts d log (a ++ b) <-> accepts d log a /\ accepts d (log ++ a) b.
Proof.
  revert log. induction a as [|ev a IH]; intros log; simpl.
  - rewrite app_nil_r. tauto.
  - rewrite IH, <- app_assoc. simpl. tauto.
Qed.

Lemma never_raises_accepts d log evs : never_raises d -> accepts d log evs.
Proof.
  intros H. revert log. induction evs as [|ev evs IH]; intros log; simpl; auto.
Qed.

Lemma append_assoc (a b c : string) :
  ((a ++ b) ++ c = a ++ b ++ c)%string.
Proof. induction a as [|x a IH]; simpl; [|rewrite IH]; reflexivity. Qed.

(** X8.  [create_table]: one clause per column, in the order of the dict; the
    clause of the column named as primary key, and no other, ends with the
    key marker.  Without a primary key, with an empty one, or with one that
    names no column, no clause has the marker. *)
Theorem column_defs_mark_the_key (columns : dict string)
  (primary_key : option string) :
  length (column_defs columns primary_key) = length columns
  /\ (match primary_key with
      | Some pk => PyStr.truthy pk = false \/ ~ In pk (keys columns)
      | None => True
      end ->
      column_defs columns primary_key = map plain_def columns)
  /\ (forall pk col_type before after,
        primary_key = Some pk -> PyStr.truthy pk = true ->
        NoDup (keys columns) ->
        columns = before ++ (pk, col_type) :: after ->
        column_defs columns primary_key
        = map plain_def before
          ++ (pk ++ " " ++ col_type ++ " PRIMARY KEY")%string
          :: map plain_def after).
Proof.
  assert (Hplain : forall pk cols,
             ~ In pk (keys cols) ->
             column_defs cols (Some pk) = map plain_def cols).
  { intros pk cols Hout. unfold column_defs. apply map_ext_in.
    intros [name ty] Hin. destruct (String.eqb_spec name pk) as [->|_].
    - exfalso. apply Hout. apply (in_map fst) in Hin. exact Hin.
    - rewrite andb_false_r. reflexivity. }
  split; [|split].
  - unfold column_defs. apply length_map.
  - destruct primary_key as [pk|]; [|intros _].
    + intros [Hempty|Hout]; [|apply Hplain, Hout].
      unfold column_defs. apply map_ext. intros [name ty].
      rewrite Hempty. reflexivity.
    + unfold column_defs. apply map_ext. intros [name ty]. reflexivity.
  - intros pk ty before after -> Hpk Hnodup ->.
    unfold keys in Hnodup. rewrite map_app in Hnodup. simpl in Hnodup.
    apply NoDup_remove_2 in Hnodup.
    rewrite in_app_iff in Hnodup.
    assert (Hb : ~ In pk (keys before)) by tauto.
    assert (Ha : ~ In pk (keys after)) by tauto.
    rewrite <- (Hplain pk before Hb), <- (Hplain pk after Ha).
    unfold column_defs. rewrite map_app. simpl.
    rewrite Hpk, String.eqb_refl. simpl.
    rewrite !append_assoc. reflexivity.
Qed.

Section Statements.

Variable D : Driver.t.

(** X10.  [_execute_query] closes the cursor it made, on every path: once the
    cursor exists, the calls of the run hold one cursor, one close, and the
    close is the last of them. *)
Theorem execute_query_closes_its_cursor h query params fetch fetch_one
  commit t :
  raises D t EvCursor = None ->
  exists evs,
    snd (_execute_query D query params fetch fetch_one commit (open_at h t))
    = open_at h (t ++ evs)
    /\ count is_cursor evs = 1
    /\ count is_cursor_close evs = 1
    /\ last evs EvCursor = EvCursorClose.
Proof.
  intros Hcur.
  unfold _execute_query, execute_query_body, open_at. unfold_calls. simpl.
  rewrite Hcur. simpl.
  destruct fetch, fetch_one, commit; simpl; repeat next_call;
    (eexists; split; [rewrite <- ?app_assoc; simpl; reflexivity|]);
    repeat split.
Qed.

(** X11.  [_execute_query] commits only when asked to and when it fetches
    nothing: a run with [fetch] or [fetch_one] sends no commit whatever
    [commit] says.  A run that returns has sent no rollback. *)
Theorem execute_query_commit_discipline h query params fetch fetch_one
  commit t :
  exists evs,
    snd (_execute_query D query params fetch fetch_one commit (open_at h t))
    = open_at h (t ++ evs)
    /\ (count is_commit evs <> 0 ->
        fetch = false /\ fetch_one = false /\ commit = true)
    /\ (forall v,
          fst (_execute_query D query params fetch fetch_one commit
                              (open_at h t)) = Return v ->
          count is_rollback evs = 0).
Proof.
  unfold _execute_query, execute_query_body, open_at. unfold_calls. simpl.
  destruct fetch, fetch_one, commit; simpl; repeat next_call;
    (eexists; split; [rewrite <- ?app_assoc; simpl; reflexivity|]);
    (split; [intros Hc; try (exfalso; apply Hc; reflexivity); auto
            | intros v Hv; try discriminate Hv; reflexivity]).
Qed.

(** X12.  [table_exists] when the driver accepts its calls: the first item of
    the fetched row, and [False] when no row (or an empty one) came back;
    the transaction is neither committed nor rolled back. *)
Theorem table_exists_result h t table :
  let sent :=
    [EvCursor; EvExecute table_exists_sql (Some [VStr table]); EvFetchOne] in
  accepts D t (sent ++ [EvCursorClose]) ->
  table_exists D table (open_at h t)
  = (Return match fetchone_row D (t ++ sent) with
            | Some (v :: _) => OValue v
            | _ => OValue (VBool false)
            end,
     open_at h (t ++ sent ++ [EvCursorClose])).
Proof.
  intros sent (H1 & H2 & H3 & H4 & _). subst sent. simpl in *.
  rewrite <- !app_assoc in *. simpl in *.
  unfold table_exists, _execute_query, execute_query_body, open_at.
  unfold_calls. simpl. rewrite H1. simpl. rewrite H2. simpl.
  rewrite <- !app_assoc. simpl. rewrite H3. simpl.
  rewrite <- !app_assoc. simpl. rewrite H4.
  destruct (fetchone_row D _) as [[|v rest]|]; reflexivity.
Qed.

Lemma column_infos_of_wide_rows rows :
  Forall (fun r => 3 <= length r) rows ->
  mapM column_info_of rows = Return (map column_info_at rows).
Proof.
  induction 1 as [|r rows Hr _ IH]; simpl; [reflexivity|].
  rewrite IH. destruct r as [|a [|b [|c r]]]; simpl in Hr; try lia.
  reflexivity.
Qed.

Lemma column_infos_of_short_row rows :
  Exists (fun r => length r < 3) rows ->
  mapM column_info_of rows = Raise (IndexError "index out of range").
Proof.
  induction rows as [|r rows IH]; intros H; [inversion H|].
  simpl. destruct r as [|a [|b [|c r]]]; try reflexivity.
  inversion H as [? ? Hr|? ? Hrest]; subst; [simpl in Hr; lia|].
  rewrite (IH Hrest). reflexivity.
Qed.

(** X13.  [get_table_columns] when the driver accepts its calls: one entry per
    fetched row, in the order fetched, nullable exactly when the third item
    is the text YES.  A fetched row of fewer than three items ends the call
    in [IndexError], after the statement ran and its cursor was closed. *)
Theorem get_table_columns_per_row h t table :
  let sent :=
    [EvCursor; EvExecute table_columns_sql (Some [VStr table]); EvFetchAll] in
  let rows := fetchall_rows D (t ++ sent) in
  let run := get_table_columns D table (open_at h t) in
  accepts D t (sent ++ [EvCursorClose]) ->
  snd run = open_at h (t ++ sent ++ [EvCursorClose])
  /\ (Forall (fun r => 3 <= length r) rows ->
      fst run = Return (map column_info_at rows))
  /\ (Exists (fun r => length r < 3) rows ->
      fst run = Raise (IndexError "index out of range")).
Proof.
  intros sent rows run (H1 & H2 & H3 & H4 & _). subst sent run. simpl in *.
  rewrite <- !app_assoc in *. simpl in *.
  assert (Hq : _execute_query D table_columns_sql (Some [VStr table])
                 true false false (open_at h t)
               = (Return (ORows rows),
                  open_at h (t ++ [EvCursor;
                                   EvExecute table_columns_sql
                                             (Some [VStr table]);
                                   EvFetchAll; EvCursorClose]))).
  { unfold _execute_query, execute_query_body, open_at.
    unfold_calls. simpl. rewrite H1. simpl. rewrite H2. simpl.
    rewrite <- !app_assoc. simpl. rewrite H3. simpl.
    rewrite <- !app_assoc. simpl. rewrite H4. reflexivity. }
  unfold get_table_columns, bind, lift. rewrite Hq. simpl.
  split; [|split].
  - destruct (mapM column_info_of rows); reflexivity.
  - intros Hw. rewrite (column_infos_of_wide_rows Hw). reflexivity.
  - intros Hs. rewrite (column_infos_of_short_row Hs). reflexivity.
Qed.

(** X14.  [update] and [delete] when the driver accepts their calls: the
    statement is sent with the values of the dict followed by the
    parameters of the WHERE clause, it is committed, the cursor is closed,
    and the result is the row count the driver reported for it. *)
Theorem update_delete_report_rowcount h t table data where_clause
  where_params :
  let values_sent :=
    values data ++ match where_params with Some p => p | None => [] end in
  let updating :=
    [EvCursor; EvExecute (update_sql table data where_clause)
                         (Some values_sent)] in
  let deleting :=
    [EvCursor; EvExecute (delete_sql table where_clause) where_params] in
  (accepts D t (updating ++ [EvCommit; EvCursorClose]) ->
   update D table data where_clause where_params (open_at h t)
   = (Return (rowcount_of D (t ++ updating)),
      open_at h (t ++ updating ++ [EvCommit; EvCursorClose])))
  /\ (accepts D t (deleting ++ [EvCommit; EvCursorClose]) ->
      delete D table where_clause where_params (open_at h t)
      = (Return (rowcount_of D (t ++ deleting)),
         open_at h (t ++ deleting ++ [EvCommit; EvCursorClose]))).
Proof.
  intros values_sent updating deleting. subst updating deleting. split.
  - intros (H1 & H2 & H3 & H4 & _). simpl in *.
    rewrite <- !app_assoc in *. simpl in *.
    unfold update, open_at. unfold_calls. cbv zeta. fold values_sent.
    simpl. rewrite H1. simpl. rewrite H2. simpl.
    rewrite <- !app_assoc. simpl. rewrite H3. simpl.
    rewrite <- !app_assoc. simpl. rewrite H4. reflexivity.
  - intros (H1 & H2 & H3 & H4 & _). simpl in *.
    rewrite <- !app_assoc in *. simpl in *.
    unfold delete, open_at. unfold_calls. cbv zeta.
    simpl. rewrite H1. simpl. rewrite H2. simpl.
    rewrite <- !app_assoc. simpl. rewrite H3. simpl.
    rewrite <- !app_assoc. simpl. rewrite H4. reflexivity.
Qed.

End Statements.

End StatementFacts.

(** ** Placeholders and parameters *)

Module PlaceholderFacts.

Import Py Driver Facade Spec.
Local Open Scope string_scope.

Lemma placeholders_skip a b :
  no_percent a = true -> placeholders (a ++ b) = placeholders b.
Proof.
  unfold no_percent. induction a as [|c a IH]; simpl; [reflexivity|].
  intros H. apply andb_prop in H as [Hc Ha].
  apply negb_true_iff in Hc. rewrite Hc. simpl. apply IH, Ha.
Qed.

Lemma no_percent_app a b :
  no_percent (a ++ b) = no_percent a && no_percent b.
Proof.
  unfold no_percent. induction a as [|c a IH]; simpl; [reflexivity|].
  rewrite IH. apply andb_assoc.
Qed.

Lemma no_percent_join columns :
  Forall (fun k => no_percent k = true) columns ->
  no_percent (PyStr.join ", " columns) = true.
Proof.
  unfold PyStr.join. induction 1 as [|k ks Hk Hks IH]; [reflexivity|].
  destruct ks as [|k' ks]; [exact Hk|].
  change (String.concat ", " (k :: k' :: ks))
    with (k ++ ", " ++ String.concat ", " (k' :: ks)).
  rewrite !no_percent_app, Hk, IH. reflexivity.
Qed.

Lemma append_empty s : s ++ "" = s.
Proof. induction s as [|c s IH]; simpl; [|rewrite IH]; reflexivity. Qed.

Lemma startswith_empty s : PyStr.startswith s "" = true.
Proof. destruct s; reflexivity. Qed.

Lemma placeholders_one tail :
  placeholders ("%s" ++ tail) = S (placeholders tail).
Proof. simpl. rewrite startswith_empty. destruct tail; reflexivity. Qed.

Lemma placeholders_assignment tail :
  placeholders (" = %s" ++ tail) = S (placeholders tail).
Proof. simpl. rewrite startswith_empty. destruct tail; reflexivity. Qed.

(** The placeholders of [insert_sql]: one per column. *)
Lemma placeholders_repeat n tail :
  placeholders (PyStr.join ", " (repeat "%s" n) ++ tail)
  = n + placeholders tail.
Proof.
  unfold PyStr.join. induction n as [|n IH]; [reflexivity|].
  destruct n as [|n].
  - apply placeholders_one.
  - change (String.concat ", " (repeat "%s" (S (S n))))
      with ("%s" ++ ", " ++ String.concat ", " (repeat "%s" (S n))).
    rewrite !StatementFacts.append_assoc, placeholders_one.
    rewrite (placeholders_skip ", " _ eq_refl), IH. reflexivity.
Qed.

(** The placeholders of the SET clause of [update_sql]: one per key. *)
Lemma placeholders_set_clause ks tail :
  Forall (fun k => no_percent k = true) ks ->
  placeholders (PyStr.join ", " (map (fun k => k ++ " = %s") ks) ++ tail)
  = length ks + placeholders tail.
Proof.
  unfold PyStr.join. induction 1 as [|k ks Hk Hks IH]; [reflexivity|].
  destruct ks as [|k' ks].
  - simpl String.concat. rewrite StatementFacts.append_assoc.
    rewrite (placeholders_skip k _ Hk). apply placeholders_assignment.
  - change (String.concat ", " (map (fun k => k ++ " = %s") (k :: k' :: ks)))
      with ((k ++ " = %s") ++ ", "
            ++ String.concat ", " (map (fun k => k ++ " = %s") (k' :: ks))).
    rewrite !StatementFacts.append_assoc.
    rewrite (placeholders_skip k _ Hk), placeholders_assignment.
    rewrite (placeholders_skip ", " _ eq_refl), IH. reflexivity.
Qed.

(** X21.  The statements [insert] and [update] build have as many [%s]
    placeholders as the parameters sent with them, when neither the table
    name nor a key holds a percent sign: [insert] sends one value per
    placeholder, with or without RETURNING, and [update] sends the values
    of the dict for the placeholders of the SET clause, so its parameters
    match exactly when the WHERE parameters are as many as the placeholders
    of the WHERE clause. *)
Theorem placeholders_match_parameters (table : string) (data : dict value)
  (where_clause : string) :
  no_percent table = true ->
  Forall (fun k => no_percent k = true) (keys data) ->
  placeholders (insert_sql table (keys data)) = length (values data)
  /\ placeholders (insert_sql table (keys data) ++ " RETURNING id")
     = length (values data)
  /\ placeholders (update_sql table data where_clause)
     = length (values data) + placeholders where_clause.
Proof.
  intros Ht Hk.
  assert (Hlen : length (keys data) = length (values data))
    by (unfold keys, values; rewrite !length_map; reflexivity).
  assert (Hins : forall tail,
             placeholders (insert_sql table (keys data) ++ tail)
             = length (values data) + placeholders tail).
  { intros tail. unfold insert_sql.
    rewrite !StatementFacts.append_assoc.
    rewrite (placeholders_skip "INSERT INTO " _ eq_refl).
    rewrite (placeholders_skip table _ Ht).
    rewrite (placeholders_skip " (" _ eq_refl).
    rewrite (placeholders_skip _ _ (no_percent_join Hk)).
    rewrite (placeholders_skip ") VALUES (" _ eq_refl).
    rewrite placeholders_repeat, Hlen.
    rewrite (placeholders_skip ")" _ eq_refl). reflexivity. }
  split; [|split].
  - pose proof (Hins "") as H0. rewrite append_empty in H0.
    rewrite H0. apply Nat.add_0_r.
  - rewrite Hins. apply Nat.add_0_r.
  - unfold update_sql.
    rewrite (placeholders_skip "UPDATE " _ eq_refl).
    rewrite (placeholders_skip table _ Ht).
    rewrite (placeholders_skip " SET " _ eq_refl).
    rewrite (placeholders_set_clause _ Hk), Hlen.
    rewrite (placeholders_skip " WHERE " _ eq_refl). reflexivity.
Qed.

End PlaceholderFacts.

(** ** Bulk loading *)

Module BulkFacts.

Import Py Driver Facade Spec FacadeFacts BatchFacts StatementFacts.
Local Open Scope string_scope.
Local Open Scope list_scope.

Lemma chunks_upto_map {A B} (f : A -> B) n fuel (l : list A) :
  chunks_upto fuel n (map f l) = map (map f) (chunks_upto fuel n l).
Proof.
  revert l. induction fuel as [|fuel IH]; intros l; [reflexivity|].
  destruct l as [|x l]; [reflexivity|].
  cbn [chunks_upto map]. change (f x :: map f l) with (map f (x :: l)).
  rewrite firstn_map, skipn_map, IH. reflexivity.
Qed.

Lemma chunks_map {A B} (f : A -> B) n (l : list A) :
  chunks n (map f l) = map (map f) (chunks n l).
Proof. unfold chunks. rewrite length_map. apply chunks_upto_map. Qed.

Lemma keys_combine {V} (columns : list string) (row : list V) :
  length row = length columns -> keys (combine columns row) = columns.
Proof.
  revert row. induction columns as [|k columns IH]; intros [|v row] H;
    simpl in *; try reflexivity; try discriminate.
  f_equal. apply IH. lia.
Qed.

Lemma get_skips_other_key {V} (d : dict V) k k' (v : V) :
  k <> k' -> get ((k', v) :: d) k = get d k.
Proof.
  intros H. simpl. destruct (String.eqb_spec k k'); [contradiction|reflexivity].
Qed.

(** Looking the labels up in the dict of a row gives the row back. *)
Lemma project_combine (columns : list string) (row : list value) :
  NoDup columns -> length row = length columns ->
  project columns (combine columns row) = row.
Proof.
  intros Hnd. revert row.
  induction Hnd as [|k columns Hk _ IH]; intros [|v row] H;
    try reflexivity; try discriminate H.
  injection H as H. cbn [combine]. unfold project. cbn [map get].
  rewrite String.eqb_refl. f_equal.
  transitivity (project columns (combine columns row)); [|apply IH, H].
  unfold project. apply map_ext_in. intros k' Hk'.
  destruct (String.eqb_spec k' k) as [->|_]; [contradiction | reflexivity].
Qed.

(** The values of a dict under its own keys are its values. *)
Lemma project_own_keys (o : dict value) :
  NoDup (keys o) -> project (keys o) o = values o.
Proof.
  intros Hnd. rewrite <- (@project_combine (keys o) (values o) Hnd).
  - f_equal. unfold keys, values. clear Hnd.
    induction o as [|[k v] o IH]; simpl; [|rewrite <- IH]; reflexivity.
  - unfold keys, values. rewrite !length_map. reflexivity.
Qed.

Lemma covers_own_keys (o : dict value) : covers (keys o) o = true.
Proof.
  unfold covers. apply forallb_forall. intros k Hk.
  destruct (ReaderFacts.get_some o k Hk) as [v ->]. reflexivity.
Qed.

Section Bulk.

Variable D : Driver.t.
Variable MAX_BATCH_SIZE : Z.
Variable h : handle.
Variable table : string.

(** X15.  [insert_batch] on rows with a chunk size that is not positive: below
    zero the range is empty, so nothing is sent (not even with a connection
    missing) and the result is 0 whatever the number of rows; zero is
    refused by [range] with a [ValueError] that the handler does not
    catch. *)
Theorem insert_batch_size_not_positive rows batch_size m :
  let b := chunk_size MAX_BATCH_SIZE batch_size in
  rows <> [] ->
  ((b < 0)%Z ->
   insert_batch D MAX_BATCH_SIZE table rows batch_size m = (Return 0%Z, m))
  /\ (b = 0%Z ->
      insert_batch D MAX_BATCH_SIZE table rows batch_size m
      = (Raise (ValueError "range() arg 3 must not be zero"), m)).
Proof.
  intros b Hne. destruct rows as [|r rows]; [contradiction|].
  unfold insert_batch, bind, lift, range.
  fold (chunk_size MAX_BATCH_SIZE batch_size). fold b. split.
  - intros Hb. destruct (Z.eqb_spec b 0) as [|_]; [lia|].
    destruct (Z.ltb_spec 0 b) as [|_]; [lia|].
    replace (Z.to_nat (0 - len (r :: rows))) with 0%nat
      by (unfold len; lia).
    reflexivity.
  - intros ->. reflexivity.
Qed.

(** A chunk whose calls the driver accepts. *)
Lemma insert_chunk_accepted chunk t :
  sendable chunk -> accepts D t (chunk_events table chunk) ->
  insert_chunk D table chunk (open_at h t)
  = (Return tt, open_at h (t ++ chunk_events table chunk)).
Proof.
  intros [Hne Hok] Hacc. destruct chunk as [|first rest]; [contradiction|].
  unfold chunk_ok in Hok. unfold chunk_events in *.
  cbn [chunk_columns] in *. cbn [accepts] in Hacc.
  destruct Hacc as (H1 & H2 & H3 & H4 & _).
  unfold insert_chunk, bind, lift.
  change (index (first :: rest) 0) with (Return first). cbv beta iota.
  rewrite (conn_cursor_at D h t H1). cbv beta iota.
  rewrite (chunk_values_covered _ _ Hok). cbv beta iota.
  rewrite (cursor_executemany_at D h _ _ _ H2). cbv beta iota.
  rewrite (conn_commit_at D h _ H3). cbv beta iota.
  rewrite (cursor_close_at D h _ H4).
  rewrite <- !app_assoc. reflexivity.
Qed.

(** The loop up to a chunk that the driver rejects. *)
Lemma insert_batch_loop_rejected rows bs msg :
  forall before starts t total bad after,
    slices rows bs starts = before ++ bad :: after ->
    Forall sendable before -> sendable bad ->
    accepts D t (flat_map (chunk_events table) before ++ [EvCursor]) ->
    raises D (t ++ flat_map (chunk_events table) before ++ [EvCursor])
           (EvExecuteMany (insert_sql table (chunk_columns bad))
                          (map (project (chunk_columns bad)) bad))
    = Some msg ->
    insert_batch_loop D table rows bs starts total (open_at h t)
    = (Raise (Error msg),
       open_at h
         (t ++ flat_map (chunk_events table) before
            ++ [EvCursor;
                EvExecuteMany (insert_sql table (chunk_columns bad))
                              (map (project (chunk_columns bad)) bad)])).
Proof.
  induction before as [|c before IH];
    intros starts t total bad after Hsplit Hbefore [Hne Hok] Hacc Hrej;
    (destruct starts as [|i starts]; [discriminate|]);
    cbn [slices map app] in Hsplit; injection Hsplit as Hc Hrest.
  - simpl in Hacc, Hrej. destruct Hacc as [Hcur _].
    cbn [insert_batch_loop]. unfold bind. rewrite Hc.
    rewrite (@insert_chunk_rejected D h table bad t msg Hne Hok Hcur Hrej).
    reflexivity.
  - inversion Hbefore as [|? ? [Hcne Hcok] Hbefore']; subst.
    cbn [flat_map] in Hacc, Hrej. rewrite <- app_assoc in Hacc.
    apply accepts_app in Hacc as [Hc Hacc].
    rewrite <- app_assoc, app_assoc in Hrej.
    cbn [insert_batch_loop flat_map]. unfold bind.
    rewrite (insert_chunk_accepted (conj Hcne Hcok) Hc).
    rewrite (IH starts _ (total + len (slice rows i (i + bs)))%Z bad after
               Hrest Hbefore' (conj Hne Hok) Hacc Hrej).
    rewrite <- !app_assoc. reflexivity.
Qed.

Lemma commits_of_chunks before tail :
  count is_commit (flat_map (chunk_events table) before ++ tail)
  = (length before + count is_commit tail)%nat.
Proof.
  unfold count. induction before as [|c before IH]; simpl; [reflexivity|].
  rewrite IH. reflexivity.
Qed.

Lemma rollbacks_of_chunks before tail :
  count is_rollback (flat_map (chunk_events table) before ++ tail)
  = count is_rollback tail.
Proof.
  unfold count. induction before as [|c before IH]; simpl; [reflexivity|].
  exact IH.
Qed.

(** X16.  No atomicity across chunks: when the driver rejects a chunk, the
    error leaves [insert_batch] at once; the chunks before it were each
    executed and committed and stay so (one commit per earlier chunk, no
    rollback), and the chunks after it are never sent. *)
Theorem insert_batch_keeps_earlier_chunks rows batch_size t before bad after
  msg :
  let b := chunk_size MAX_BATCH_SIZE batch_size in
  let rejected :=
    EvExecuteMany (insert_sql table (chunk_columns bad))
                  (map (project (chunk_columns bad)) bad) in
  let done := flat_map (chunk_events table) before in
  (0 < b)%Z ->
  chunks (Z.to_nat b) rows = before ++ bad :: after ->
  forallb chunk_ok before = true -> chunk_ok bad = true ->
  accepts D t (done ++ [EvCursor]) ->
  raises D (t ++ done ++ [EvCursor]) rejected = Some msg ->
  insert_batch D MAX_BATCH_SIZE table rows batch_size (open_at h t)
  = (Raise (Error msg), open_at h (t ++ done ++ [EvCursor; rejected]))
  /\ count is_commit (done ++ [EvCursor; rejected]) = length before
  /\ count is_rollback (done ++ [EvCursor; rejected]) = 0.
Proof.
  intros b rejected done Hb Hsplit Hbefore Hbad Hacc Hrej.
  assert (Hn : (0 < Z.to_nat b)%nat) by lia.
  assert (Hne : rows <> []).
  { intros ->. destruct before; discriminate Hsplit. }
  destruct (@insert_batch_as_loop D MAX_BATCH_SIZE table rows batch_size
              Hne Hb) as (starts & Hsl & Hrun).
  fold b in Hsl, Hrun.
  assert (Hall : Forall sendable (before ++ [bad])).
  { apply (@sendable_of_ok (Z.to_nat b) rows); [exact Hn | |].
    - rewrite Hsplit. intros c Hc. apply in_app_iff in Hc as [Hc|[<-|[]]];
        apply in_app_iff; [left | right; left]; auto.
    - rewrite forallb_app. simpl. rewrite Hbefore, Hbad. reflexivity. }
  apply Forall_app in Hall as [Hsb Hsbad].
  inversion Hsbad as [|? ? Hsbad' _]; subst.
  rewrite <- Hsl in Hsplit.
  split; [|split].
  - rewrite Hrun.
    apply (@insert_batch_loop_rejected rows b msg before starts t 0%Z bad
             after Hsplit Hsb Hsbad' Hacc Hrej).
  - subst done. rewrite commits_of_chunks. unfold count. simpl. lia.
  - subst done. rewrite rollbacks_of_chunks. reflexivity.
Qed.

End Bulk.

End BulkFacts.

(** ** Files and frames *)

Module SourceFacts.

Import Py Driver Facade Spec FacadeFacts BatchFacts StatementFacts BulkFacts.
Local Open Scope string_scope.
Local Open Scope list_scope.

Lemma lstrip_spaces s :
  PyStr.all_chars PyStr.isspace s = true -> PyStr.lstrip s = EmptyString.
Proof.
  induction s as [|c s IH]; simpl; [reflexivity|].
  intros H. apply andb_prop in H as [-> Hs]. apply IH, Hs.
Qed.

Lemma split_blank content :
  PyStr.all_chars (fun c => PyStr.isspace c || Ascii.eqb c ";") content
  = true ->
  Forall (fun frag => PyStr.all_chars PyStr.isspace frag = true)
         (PyStr.split ";" content).
Proof.
  induction content as [|c rest IH]; simpl; intros H.
  - repeat constructor.
  - apply andb_prop in H as [Hc Hrest]. specialize (IH Hrest).
    destruct (Ascii.eqb c ";") eqn:E.
    + constructor; [reflexivity | exact IH].
    + rewrite orb_false_r in Hc.
      destruct (PyStr.split ";" rest) as [|frag frags];
        inversion IH; subst; constructor; simpl; try rewrite Hc; auto.
Qed.

(** A text of whitespace and semicolons only holds no statement. *)
Lemma statements_blank content :
  PyStr.all_chars (fun c => PyStr.isspace c || Ascii.eqb c ";") content
  = true ->
  Readers.statements content = [].
Proof.
  intros H. unfold Readers.statements.
  induction (split_blank content H) as [|frag frags Hfrag _ IH];
    simpl; [reflexivity|].
  unfold PyStr.strip. rewrite (lstrip_spaces frag Hfrag). exact IH.
Qed.

Section Sources.

Variable D : Driver.t.
Variable MAX_BATCH_SIZE : Z.
Variable h : handle.
Variable table : string.

(** One statement the driver rejects, in [_execute_query]: cursor,
    execute, rollback, close, and the error goes on. *)
Lemma execute_query_one_rejected query params fetch fetch_one commit t msg :
  raises D t EvCursor = None ->
  raises D (t ++ [EvCursor]) (EvExecute query params) = Some msg ->
  accepts D (t ++ [EvCursor; EvExecute query params])
          [EvRollback; EvCursorClose] ->
  _execute_query D query params fetch fetch_one commit (open_at h t)
  = (Raise (Error msg), open_at h (t ++ rejected_events query params)).
Proof.
  intros H1 H2 (H3 & H4 & _).
  unfold _execute_query, execute_query_body, open_at. unfold_calls. simpl.
  rewrite H1. simpl. rewrite H2. simpl.
  rewrite <- !app_assoc. simpl. rewrite H3. simpl.
  rewrite <- !app_assoc in *. simpl in *. rewrite H4. reflexivity.
Qed.

(** One statement of a SQL file whose calls the driver accepts. *)
Lemma execute_statement_accepted s t :
  accepts D t (statement_events s) ->
  (if is_select s
   then _execute_query D s None true false false
   else _execute_query D s None false false true) (open_at h t)
  = (Return (if is_select s
             then ORows (fetchall_rows D (fetch_point t s)) else ONone),
     open_at h (t ++ statement_events s)).
Proof.
  unfold statement_events, fetch_point. intros (H1 & H2 & H3 & H4 & _).
  destruct (is_select s);
    unfold _execute_query, execute_query_body, open_at; unfold_calls; simpl;
    rewrite H1; simpl; rewrite H2; simpl; rewrite H3; simpl; rewrite H4;
    rewrite <- !app_assoc; reflexivity.
Qed.

Lemma run_statements_until_rejected before :
  forall s after t results msg,
    accepts D t (flat_map statement_events before ++ [EvCursor]) ->
    raises D (t ++ flat_map statement_events before ++ [EvCursor])
           (EvExecute s None) = Some msg ->
    accepts D (t ++ flat_map statement_events before
                 ++ [EvCursor; EvExecute s None])
            [EvRollback; EvCursorClose] ->
    run_statements D (before ++ s :: after) results (open_at h t)
    = (Raise (Error msg),
       open_at h (t ++ flat_map statement_events before
                    ++ rejected_events s None)).
Proof.
  induction before as [|s0 before IH];
    intros s after t results msg Hacc Hrej Hend.
  - simpl in *. destruct Hacc as [Hcur _].
    assert (Hq : forall f fo c,
               _execute_query D s None f fo c (open_at h t)
               = (Raise (Error msg), open_at h (t ++ rejected_events s None)))
      by (intros; apply execute_query_one_rejected; assumption).
    destruct (is_select s); unfold bind; rewrite Hq; reflexivity.
  - cbn [flat_map app] in *. rewrite <- app_assoc in Hacc.
    apply accepts_app in Hacc as [H0 Hacc].
    pose proof (execute_statement_accepted H0) as Hq.
    rewrite <- !app_assoc in Hrej. rewrite app_assoc in Hrej.
    rewrite <- !app_assoc in Hend. rewrite app_assoc in Hend.
    cbn [run_statements].
    destruct (is_select s0); unfold bind; rewrite Hq;
      rewrite (IH s after _ _ msg Hacc Hrej Hend);
      rewrite <- !app_assoc; reflexivity.
Qed.

Section Files.

Variable fs : Readers.filesystem.

(** X17.  [execute_from_sql_file] without anything to run: a file that cannot
    be read ends the call in the reader's error, and a file with no
    statement in it (only whitespace and semicolons, or nothing) gives the
    empty list; in both cases the driver is not called, connected or not. *)
Theorem execute_from_sql_file_nothing_to_run file_path m :
  (fs file_path = None ->
   execute_from_sql_file D fs file_path m = (Raise (OSError file_path), m))
  /\ (forall content,
        fs file_path = Some content ->
        PyStr.all_chars (fun c => PyStr.isspace c || Ascii.eqb c ";") content
        = true ->
        execute_from_sql_file D fs file_path m = (Return (ORows []), m)).
Proof.
  split.
  - intros H. unfold execute_from_sql_file, bind, lift, Readers.SQLReader_read.
    rewrite H. reflexivity.
  - intros content H Hblank.
    unfold execute_from_sql_file, bind, lift, Readers.SQLReader_read.
    rewrite H, (statements_blank content Hblank). reflexivity.
Qed.

(** X18.  [execute_from_sql_file] stops at the first statement the driver
    rejects: that statement is rolled back and its cursor closed, the error
    is the result, the statements after it are not sent, and the
    statements before it stay as they were run (those that do not start
    with SELECT committed). *)
Theorem execute_from_sql_file_stops_at_rejection file_path content t before
  s after msg :
  let done := flat_map statement_events before in
  fs file_path = Some content ->
  Readers.statements content = before ++ s :: after ->
  accepts D t (done ++ [EvCursor]) ->
  raises D (t ++ done ++ [EvCursor]) (EvExecute s None) = Some msg ->
  accepts D (t ++ done ++ [EvCursor; EvExecute s None])
          [EvRollback; EvCursorClose] ->
  execute_from_sql_file D fs file_path (open_at h t)
  = (Raise (Error msg), open_at h (t ++ done ++ rejected_events s None)).
Proof.
  intros done Hfile Hsplit Hacc Hrej Hend.
  unfold execute_from_sql_file, bind, lift.
  rewrite (ReaderFacts.SQLReader_read_found fs file_path Hfile), Hsplit.
  rewrite (@run_statements_until_rejected before s after t ONone msg
             Hacc Hrej Hend).
  reflexivity.
Qed.

Variable json_load : string -> outcome Readers.json.

(** X19.  [insert_from_json].  A file that cannot be read or parsed, or whose
    root is neither an object nor an array, ends the call in an error with
    the driver not called; an empty array gives 0 the same way.  A single
    object is inserted as a batch of one row: one statement under its keys
    with its values, committed, and the result is 1. *)
Theorem insert_from_json_by_root json_path batch_size m :
  let run := insert_from_json D MAX_BATCH_SIZE fs json_load table json_path
                              batch_size in
  (fs json_path = None -> run m = (Raise (OSError json_path), m))
  /\ (forall content e,
        fs json_path = Some content -> json_load content = Raise e ->
        run m = (Raise e, m))
  /\ (forall content v,
        fs json_path = Some content ->
        json_load content = Return (Readers.JOther v) ->
        run m = (Raise (ValueError "JSON must contain a list or dict"), m))
  /\ (forall content,
        fs json_path = Some content ->
        json_load content = Return (Readers.JArray []) ->
        run m = (Return 0%Z, m))
  /\ (forall content o t,
        fs json_path = Some content ->
        json_load content = Return (Readers.JObject o) ->
        NoDup (keys o) -> never_raises D ->
        (0 < chunk_size MAX_BATCH_SIZE batch_size)%Z ->
        run (open_at h t)
        = (Return 1%Z,
           open_at h (t ++ [EvCursor;
                            EvExecuteMany (insert_sql table (keys o))
                                          [values o];
                            EvCommit; EvCursorClose]))).
Proof.
  intros run. subst run.
  unfold insert_from_json, JSONReader_read, bind, lift.
  split; [|split; [|split; [|split]]].
  - intros ->. reflexivity.
  - intros content e -> ->. reflexivity.
  - intros content v -> ->. reflexivity.
  - intros content -> ->. reflexivity.
  - intros content o t -> -> Hnd H Hb.
    assert (Hn : (0 < Z.to_nat (chunk_size MAX_BATCH_SIZE batch_size))%nat)
      by lia.
    assert (Hne : [o] <> []) by discriminate.
    destruct (@insert_batch_as_loop D MAX_BATCH_SIZE table [o] batch_size
                Hne Hb) as (starts & Hsl & Hrun).
    assert (Hcs : chunks (Z.to_nat (chunk_size MAX_BATCH_SIZE batch_size)) [o]
                  = [[o]]).
    { rewrite (chunks_cons o [] Hn).
      destruct (Z.to_nat (chunk_size MAX_BATCH_SIZE batch_size)) as [|n];
        [lia|]. simpl. rewrite firstn_nil, skipn_nil. reflexivity. }
    rewrite Hcs in Hsl.
    rewrite Hrun, (insert_batch_loop_goes_through h table [o] _ H).
    + rewrite Hsl. cbn [flat_map concat app]. unfold chunk_events.
      cbn [chunk_columns map]. rewrite (@project_own_keys o Hnd), app_nil_r.
      reflexivity.
    + rewrite Hsl. repeat constructor; [discriminate|].
      unfold chunk_ok. cbn [chunk_columns forallb].
      rewrite covers_own_keys. reflexivity.
Qed.

End Files.

Lemma record_chunk_events columns (chunk : list tuple) :
  NoDup columns -> chunk <> [] ->
  Forall (fun row => length row = length columns) chunk ->
  chunk_events table (map (combine columns) chunk)
  = frame_chunk_events table columns chunk.
Proof.
  intros Hnd Hne Hw. destruct chunk as [|first rest]; [contradiction|].
  unfold chunk_events, frame_chunk_events. cbn [map chunk_columns].
  inversion Hw as [|? ? Hfirst Hrest]; subst.
  rewrite (@keys_combine _ columns first Hfirst). do 2 f_equal. f_equal.
  change (project columns (combine columns first)
          :: map (project columns) (map (combine columns) rest))
    with (map (project columns) (map (combine columns) (first :: rest))).
  rewrite map_map. rewrite <- (map_id (first :: rest)) at 2.
  apply map_ext_in. intros row Hrow.
  rewrite Forall_forall in Hw.
  apply (@project_combine columns row Hnd), Hw, Hrow.
Qed.

(** X20.  [insert_from_dataframe].  A frame without rows or without columns
    gives 0 with the driver not called.  The rows of any other rectangular
    frame with distinct labels are sent as they are, in chunks, under the
    labels of the frame: every row has all the columns, so no key is ever
    missing, and the result is the number of rows. *)
Theorem insert_from_dataframe_sends_the_rows df batch_size t :
  let b := chunk_size MAX_BATCH_SIZE batch_size in
  let run := insert_from_dataframe D MAX_BATCH_SIZE table df batch_size in
  (df_empty df = true -> forall m, run m = (Return 0%Z, m))
  /\ (df_empty df = false -> well_formed df -> never_raises D -> (0 < b)%Z ->
      run (open_at h t)
      = (Return (len (df_rows df)),
         open_at h
           (t ++ flat_map (frame_chunk_events table (df_columns df))
                          (chunks (Z.to_nat b) (df_rows df))))).
Proof.
  intros b run. subst run. unfold insert_from_dataframe. split.
  - intros ->. reflexivity.
  - intros Hfull [Hnd Hwide] H Hb. rewrite Hfull.
    assert (Hn : (0 < Z.to_nat b)%nat) by lia.
    destruct df as [columns rows]. unfold to_dict_records. simpl in *.
    assert (Hrows : map (combine columns) rows <> []).
    { destruct rows; [destruct columns; discriminate Hfull | discriminate]. }
    assert (Hu : uniform_keys (map (combine columns) rows)).
    { assert (Hk : forall r, In r (map (combine columns) rows) ->
                             keys r = columns).
      { intros r Hr. apply in_map_iff in Hr as (row & <- & Hrow).
        rewrite Forall_forall in Hwide.
        apply keys_combine, Hwide, Hrow. }
      intros r r' Hr Hr' k. rewrite (Hk r Hr), (Hk r' Hr'). reflexivity. }
    destruct (@insert_batch_as_loop D MAX_BATCH_SIZE table _ batch_size
                Hrows Hb) as (starts & Hsl & Hrun).
    fold b in Hsl, Hrun.
    rewrite Hrun, (insert_batch_loop_goes_through h table _ b H).
    + rewrite Hsl, (concat_chunks _ Hn). unfold len. rewrite length_map.
      do 3 f_equal. rewrite chunks_map, flat_map_concat_map, map_map.
      rewrite flat_map_concat_map. f_equal. apply map_ext_in.
      intros c Hc.
      pose proof (chunks_upto_sizes Hn (length rows) rows) as Hsz.
      rewrite Forall_forall in Hsz. specialize (Hsz c Hc).
      apply record_chunk_events; [exact Hnd | | ].
      * intros ->. simpl in Hsz. lia.
      * apply Forall_forall. intros row Hrow.
        rewrite Forall_forall in Hwide. apply Hwide.
        rewrite <- (concat_chunks rows Hn). apply in_concat.
        exists c. auto.
    + rewrite Hsl. apply (uniform_chunks_sendable Hn Hu).
Qed.

End Sources.

End SourceFacts.

(** ** More runs on the inputs of [Demo] *)

Module MoreRuns.

Import Py Driver Facade Spec Demo.
Local Open Scope string_scope.
Local Open Scope list_scope.
Local Open Scope py_scope.

Lemma catalog_never_raises : never_raises catalog.
Proof. intros log ev. reflexivity. Qed.

(** The table of the docstring of [create_table]. *)
Lemma column_defs_mark_the_key_witness :
  column_defs [ ("id", "SERIAL"); ("name", "VARCHAR(100)");
                ("email", "VARCHAR(100)") ] (Some "id")
  = [ "id SERIAL PRIMARY KEY"; "name VARCHAR(100)"; "email VARCHAR(100)" ].
Proof.
  apply (proj2 (proj2 (StatementFacts.column_defs_mark_the_key
                         [ ("id", "SERIAL"); ("name", "VARCHAR(100)");
                           ("email", "VARCHAR(100)") ] (Some "id")))
               "id" "SERIAL" []
               [ ("name", "VARCHAR(100)"); ("email", "VARCHAR(100)") ]
               eq_refl eq_refl).
  - repeat constructor; simpl; intros H;
      repeat (destruct H as [H|H]; [discriminate H|]); exact H.
  - reflexivity.
Defined.

(** A statement the database rejects with [psycopg2.Error] in
    [_execute_query]. *)
Lemma execute_query_error_rolls_back_witness :
  exists before after,
    [ EvConnect; EvCursor; EvExecute "DROP TABLE t" None;
      EvRollback; EvCursorClose ]
    = [EvConnect] ++ before ++ EvRollback :: after
    /\ (after = [] \/ after = [EvCursorClose]).
Proof.
  apply (@FacadeFacts.execute_query_error_rolls_back rejecting 0
           "DROP TABLE t" None false false true [EvConnect]
           "syntax error"
           (open_at 0 [ EvConnect; EvCursor; EvExecute "DROP TABLE t" None;
                        EvRollback; EvCursorClose ])).
  - intros log. reflexivity.
  - reflexivity.
Defined.

Lemma execute_query_closes_its_cursor_witness :
  exists evs,
    snd (_execute_query rejecting "DROP TABLE t" None false false true
                        connected)
    = open_at 0 ([EvConnect] ++ evs)
    /\ count is_cursor evs = 1
    /\ count is_cursor_close evs = 1
    /\ last evs EvCursor = EvCursorClose.
Proof.
  apply (@StatementFacts.execute_query_closes_its_cursor rejecting 0
           "DROP TABLE t" None false false true [EvConnect] eq_refl).
Defined.

Lemma table_exists_result_witness :
  table_exists catalog "users" connected
  = (Return (OValue (VBool true)),
     open_at 0 [ EvConnect; EvCursor;
                 EvExecute table_exists_sql (Some [VStr "users"]);
                 EvFetchOne; EvCursorClose ]).
Proof.
  apply (@StatementFacts.table_exists_result catalog 0 [EvConnect] "users").
  simpl. repeat split.
Defined.

(** No row for the catalog query: [False]. *)
Example table_exists_without_row :
  fst (table_exists (rejecting_after 100) "users" connected)
  = Return (OValue (VBool false)).
Proof. reflexivity. Qed.

Lemma get_table_columns_per_row_witness :
  fst (get_table_columns catalog "users" connected)
  = Return [ {| info_name := VStr "id"; info_type := VStr "integer";
                info_nullable := false |};
             {| info_name := VStr "name"; info_type := VStr "text";
                info_nullable := true |} ]
  /\ fst (get_table_columns quiet "users" connected)
     = Raise (IndexError "index out of range").
Proof.
  split.
  - apply (@StatementFacts.get_table_columns_per_row catalog 0 [EvConnect]
             "users").
    + simpl. repeat split.
    + repeat constructor.
  - apply (@StatementFacts.get_table_columns_per_row quiet 0 [EvConnect]
             "users").
    + simpl. repeat split.
    + apply Exists_cons_hd. simpl. lia.
Defined.

Lemma update_delete_report_rowcount_witness :
  update catalog "users" [("email", VStr "new@example.com")] "id = %s"
         (Some [VInt 1]) connected
  = (Return 2%Z,
     open_at 0 [ EvConnect; EvCursor;
                 EvExecute "UPDATE users SET email = %s WHERE id = %s"
                           (Some [VStr "new@example.com"; VInt 1]);
                 EvCommit; EvCursorClose ])
  /\ delete catalog "users" "id = %s" (Some [VInt 1]) connected
     = (Return 2%Z,
        open_at 0 [ EvConnect; EvCursor;
                    EvExecute "DELETE FROM users WHERE id = %s"
                              (Some [VInt 1]);
                    EvCommit; EvCursorClose ]).
Proof.
  destruct (StatementFacts.update_delete_report_rowcount catalog 0
              [EvConnect] "users" [("email", VStr "new@example.com")]
              "id = %s" (Some [VInt 1])) as [Hu Hd].
  split; [apply Hu | apply Hd]; simpl; repeat split.
Defined.

(** A session around a statement that fails: the connection is closed
    and the error comes out. *)
Lemma with_manager_closes_witness :
  with_manager rejecting
    (_execute_query rejecting "DROP TABLE t" None false false true) init
  = (Raise (Error "syntax error"),
     open_at 0 [ EvConnect; EvCursor; EvExecute "DROP TABLE t" None;
                 EvRollback; EvCursorClose; EvClose ]).
Proof.
  apply (proj2 (LifecycleFacts.with_manager_closes rejecting
                  (_execute_query rejecting "DROP TABLE t" None
                                  false false true) init)).
  - apply ConnectionFacts.keeps_execute_query.
  - reflexivity.
  - reflexivity.
Defined.

Lemma disconnect_keeps_the_connection_witness :
  (disconnect quiet ;; disconnect quiet) connected
  = (Return (OValue (VBool true)),
     open_at 0 [EvConnect; EvClose; EvClose]).
Proof.
  apply (proj2 (proj2 (@LifecycleFacts.disconnect_keeps_the_connection
                         quiet 0 [EvConnect] eq_refl))).
  reflexivity.
Defined.

(** A statement after [disconnect] goes to the closed connection. *)
Example query_after_disconnect :
  snd ((disconnect quiet ;; query quiet "SELECT 1" None false) connected)
  = open_at 0 [ EvConnect; EvClose; EvCursor; EvExecute "SELECT 1" None;
                EvFetchAll; EvCursorClose ].
Proof. reflexivity. Qed.

Lemma reconnect_leaks_the_first_witness :
  (connect quiet ;; connect quiet ;; disconnect quiet) init
  = (Return (OValue (VBool true)),
     open_at 1 [EvConnect; EvConnect; EvClose]).
Proof.
  apply (@LifecycleFacts.reconnect_leaks_the_first quiet init).
  simpl. repeat split.
Defined.

Lemma insert_batch_size_not_positive_witness :
  insert_batch quiet 1000 "users" users (Some (-5)%Z) init = (Return 0%Z, init)
  /\ insert_batch quiet 0 "users" users None connected
     = (Raise (ValueError "range() arg 3 must not be zero"), connected).
Proof.
  split.
  - apply (@BulkFacts.insert_batch_size_not_positive quiet 1000%Z "users"
             users (Some (-5)%Z) init); [discriminate | reflexivity].
  - apply (@BulkFacts.insert_batch_size_not_positive quiet 0%Z "users"
             users None connected); [discriminate | reflexivity].
Defined.

(** Three rows one by one into a database that fills up after the first:
    the first row stays committed, the third is never sent. *)
Lemma insert_batch_keeps_earlier_chunks_witness :
  insert_batch (rejecting_after 5) 1000 "users" users (Some 1%Z) connected
  = (Raise (Error "disk full"),
     open_at 0
       [ EvConnect;
         EvCursor;
         EvExecuteMany "INSERT INTO users (name, email) VALUES (%s, %s)"
                       [ [VStr "John"; VStr "john@example.com"] ];
         EvCommit; EvCursorClose;
         EvCursor;
         EvExecuteMany "INSERT INTO users (name, email) VALUES (%s, %s)"
                       [ [VStr "Jane"; VStr "jane@example.com"] ] ]).
Proof.
  apply (proj1 (@BulkFacts.insert_batch_keeps_earlier_chunks
                  (rejecting_after 5) 1000%Z 0 "users" users (Some 1%Z)
                  [EvConnect]
                  [ [ [("name", VStr "John");
                       ("email", VStr "john@example.com")] ] ]
                  [ [("name", VStr "Jane");
                     ("email", VStr "jane@example.com")] ]
                  [ [ [("name", VStr "Ann");
                       ("email", VStr "ann@example.com")] ] ]
                  "disk full" eq_refl eq_refl eq_refl eq_refl
                  ltac:(simpl; repeat split) eq_refl)).
Defined.

Lemma execute_from_sql_file_nothing_to_run_witness :
  execute_from_sql_file quiet (one_file "empty.sql" " ; ;  ") "empty.sql" init
  = (Return (ORows []), init)
  /\ execute_from_sql_file quiet (one_file "empty.sql" " ; ;  ") "other.sql"
                           init
     = (Raise (OSError "other.sql"), init).
Proof.
  split.
  - apply (proj2 (SourceFacts.execute_from_sql_file_nothing_to_run quiet
                    (one_file "empty.sql" " ; ;  ") "empty.sql" init)
                 " ; ;  " eq_refl eq_refl).
  - apply (proj1 (SourceFacts.execute_from_sql_file_nothing_to_run quiet
                    (one_file "empty.sql" " ; ;  ") "other.sql" init)
                 eq_refl).
Defined.

(** Three statements, the second rejected: the table stays created, the
    SELECT is never sent. *)
Lemma execute_from_sql_file_stops_at_rejection_witness :
  execute_from_sql_file (rejecting_after 5)
    (one_file "init.sql"
              "CREATE TABLE t(x INT); INSERT INTO t VALUES (1); SELECT 1;")
    "init.sql" connected
  = (Raise (Error "disk full"),
     open_at 0 [ EvConnect;
                 EvCursor; EvExecute "CREATE TABLE t(x INT)" None;
                 EvCommit; EvCursorClose;
                 EvCursor; EvExecute "INSERT INTO t VALUES (1)" None;
                 EvRollback; EvCursorClose ]).
Proof.
  apply (@SourceFacts.execute_from_sql_file_stops_at_rejection
           (rejecting_after 5) 0
           (one_file "init.sql"
              "CREATE TABLE t(x INT); INSERT INTO t VALUES (1); SELECT 1;")
           "init.sql"
           "CREATE TABLE t(x INT); INSERT INTO t VALUES (1); SELECT 1;"
           [EvConnect] ["CREATE TABLE t(x INT)"] "INSERT INTO t VALUES (1)"
           ["SELECT 1"] "disk full" eq_refl eq_refl).
  - simpl. repeat split.
  - reflexivity.
  - simpl. repeat split.
Defined.

Lemma insert_from_json_by_root_witness :
  insert_from_json quiet 1000
    (one_file "user.json" "{}")
    (always (Readers.JObject [("name", VStr "John"); ("age", VInt 30)]))
    "users" "user.json" None connected
  = (Return 1%Z,
     open_at 0 [ EvConnect; EvCursor;
                 EvExecuteMany "INSERT INTO users (name, age) VALUES (%s, %s)"
                               [ [VStr "John"; VInt 30] ];
                 EvCommit; EvCursorClose ])
  /\ insert_from_json quiet 1000 (one_file "user.json" "7")
       (always (Readers.JOther (VInt 7))) "users" "user.json" None init
     = (Raise (ValueError "JSON must contain a list or dict"), init).
Proof.
  split.
  - apply (proj2 (proj2 (proj2 (proj2
             (SourceFacts.insert_from_json_by_root quiet 1000%Z 0 "users"
                (one_file "user.json" "{}")
                (always (Readers.JObject
                           [("name", VStr "John"); ("age", VInt 30)]))
                "user.json" None connected))))
             "{}" [("name", VStr "John"); ("age", VInt 30)] [EvConnect]
             eq_refl eq_refl).
    + repeat constructor; simpl; intros H;
        repeat (destruct H as [H|H]; [discriminate H|]); exact H.
    + exact Runs.quiet_never_raises.
    + reflexivity.
  - apply (proj1 (proj2 (proj2
             (SourceFacts.insert_from_json_by_root quiet 1000%Z 0 "users"
                (one_file "user.json" "7") (always (Readers.JOther (VInt 7)))
                "user.json" None init)))
             "7" (VInt 7) eq_refl eq_refl).
Defined.

Lemma insert_from_dataframe_sends_the_rows_witness :
  insert_from_dataframe quiet 1000 "people" people None connected
  = (Return 2%Z,
     open_at 0 [ EvConnect; EvCursor;
                 EvExecuteMany "INSERT INTO people (name, age) VALUES (%s, %s)"
                               [ [VStr "John"; VInt 30];
                                 [VStr "Jane"; VInt 25] ];
                 EvCommit; EvCursorClose ]).
Proof.
  apply (proj2 (SourceFacts.insert_from_dataframe_sends_the_rows quiet 1000%Z
                  0 "people" people None [EvConnect])).
  - reflexivity.
  - split.
    + repeat constructor; simpl; intros H;
        repeat (destruct H as [H|H]; [discriminate H|]); exact H.
    + repeat constructor.
  - exact Runs.quiet_never_raises.
  - reflexivity.
Defined.

(** A frame with rows and no column counts as empty. *)
Example insert_from_dataframe_without_columns :
  insert_from_dataframe quiet 1000 "people"
    {| df_columns := []; df_rows := [[]; []] |} None init
  = (Return 0%Z, init).
Proof. reflexivity. Qed.

Lemma placeholders_match_parameters_witness :
  placeholders "INSERT INTO users (name, email) VALUES (%s, %s)" = 2
  /\ placeholders
       "INSERT INTO users (name, email) VALUES (%s, %s) RETURNING id" = 2
  /\ placeholders "UPDATE users SET name = %s, email = %s WHERE id = %s"
     = 2 + placeholders "id = %s".
Proof.
  apply (PlaceholderFacts.placeholders_match_parameters "users"
           [("name", VStr "John"); ("email", VStr "john@example.com")]
           "id = %s").
  - reflexivity.
  - repeat constructor.
Defined.

End MoreRuns.
